(** * pantry-api: the request handlers of [src/index.js] over a model of
    the PANTRY table

    The file embeds the JavaScript of [src/index.js] function by function.
    JavaScript values are a small dynamically typed universe ([Val]); the
    handlers run in a state-and-exception monad over a [World] that holds
    the database, the response object of the request being served and the
    console.  Callbacks are kept as continuations, as in the source. *)

From Stdlib Require Import ZArith QArith List String Ascii Bool Lia.
From Stdlib Require Import DecimalString.
From Stdlib Require Qcanon DecimalPos.
Import ListNotations.
Open Scope string_scope.
Set Warnings "-register-all".

(** ** JavaScript values *)

(** A finite JavaScript number is the rational it denotes (every finite
    double is one); [VNaN] is the value [NaN].  The code only compares
    numbers with 0 and 1, so rounding plays no role.  A [Date] object is
    identified by the ISO text of the DATE column it was read from, an
    [Error] object by its message. *)
Inductive Val : Type :=
| VUndef
| VNull
| VBool (b : bool)
| VNum (q : Q)
| VNaN
| VStr (s : string)
| VDate (iso : string)
| VError (message : string)
| VArr (xs : list Val)
| VObj (fields : list (string * Val)).

Definition num (n : Z) : Val := VNum (inject_Z n).

(** [typeof v] *)
Definition typeof (v : Val) : string :=
  match v with
  | VUndef => "undefined"
  | VBool _ => "boolean"
  | VNum _ | VNaN => "number"
  | VStr _ => "string"
  | VNull | VDate _ | VError _ | VArr _ | VObj _ => "object"
  end.

(** ToBoolean: the falsy values are [undefined], [null], [false], [0],
    [NaN] and the empty string. *)
Definition truthy (v : Val) : bool :=
  match v with
  | VUndef | VNull | VNaN => false
  | VBool b => b
  | VNum q => negb (Qeq_bool q 0)
  | VStr s => negb (s =? "")%string
  | VDate _ | VError _ | VArr _ | VObj _ => true
  end.

(** [a === b].  Values of different types are never strictly equal.  Two
    objects are strictly equal only when they are the same reference; the
    model has no references, and the code never compares two objects. *)
Definition strict_eq (a b : Val) : bool :=
  match a, b with
  | VUndef, VUndef | VNull, VNull => true
  | VBool x, VBool y => Bool.eqb x y
  | VNum x, VNum y => Qeq_bool x y
  | VStr x, VStr y => (x =? y)%string
  | _, _ => false
  end.

(** [a < 1] for a value whose [typeof] is ["number"]; any comparison with
    [NaN] is false. *)
Definition lt_one (v : Val) : bool :=
  match v with
  | VNum q => negb (Qle_bool 1 q)
  | _ => false
  end.

Definition isNaN (v : Val) : bool :=
  match v with
  | VNaN => true
  | _ => false
  end.

(** [s.length] of a string value. *)
Definition str_length (v : Val) : nat :=
  match v with
  | VStr s => String.length s
  | _ => O
  end.

Fixpoint lookup (k : string) (fs : list (string * Val)) : Val :=
  match fs with
  | [] => VUndef
  | (k', v) :: fs' => if (k =? k')%string then v else lookup k fs'
  end.

(** [o.k = v] on an object: an existing key keeps its place. *)
Fixpoint assign (k : string) (v : Val) (fs : list (string * Val))
  : list (string * Val) :=
  match fs with
  | [] => [(k, v)]
  | (k', v') :: fs' =>
      if (k =? k')%string then (k, v) :: fs' else (k', v') :: assign k v fs'
  end.

Definition string_of_Z (n : Z) : string :=
  NilZero.string_of_int (Z.to_int n).

(** The text a template literal interpolates.  The handlers interpolate
    only the result of [parseInt], an integer.  An integer is rendered by
    all its decimal digits, which is JavaScript's rendering up to 2^53 in
    magnitude; beyond, JavaScript prints the shortest digits that identify
    the double, and an exponent from 1e21 on, so the properties that quote
    such a text are stated for integers up to 2^53.  The rendering of the
    other values is given for totality (a number that is not an integer
    is shown as a fraction, which is not JavaScript's rendering). *)
Definition ToString (v : Val) : string :=
  match v with
  | VUndef => "undefined"
  | VNull => "null"
  | VBool true => "true"
  | VBool false => "false"
  | VNum q =>
      let r := Qred q in
      match Qden r with
      | xH => string_of_Z (Qnum r)
      | d => string_of_Z (Qnum r) ++ "/" ++ string_of_Z (Zpos d)
      end
  | VNaN => "NaN"
  | VStr s => s
  | VDate iso => iso
  | VError m => "Error: " ++ m
  | VArr _ => ""
  | VObj _ => "[object Object]"
  end.

(** ** [parseInt] and the expiration pattern *)

Definition is_ws (c : ascii) : bool :=
  let n := Z.of_nat (nat_of_ascii c) in
  (((9 <=? n) && (n <=? 13)) || (n =? 32))%Z.

Fixpoint skip_ws (s : string) : string :=
  match s with
  | String c s' => if is_ws c then skip_ws s' else s
  | EmptyString => s
  end.

(** The value of a character as a digit: [0-9], [a-z], [A-Z]. *)
Definition digit_val (c : ascii) : option Z :=
  let n := Z.of_nat (nat_of_ascii c) in
  if ((48 <=? n) && (n <=? 57))%Z then Some (n - 48)%Z
  else if ((97 <=? n) && (n <=? 122))%Z then Some (n - 87)%Z
  else if ((65 <=? n) && (n <=? 90))%Z then Some (n - 55)%Z
  else None.

(** The longest prefix of digits below [radix], read as a numeral;
    [acc] is [None] until a digit has been read. *)
Fixpoint digits (radix : Z) (s : string) (acc : option Z) : option Z :=
  match s with
  | EmptyString => acc
  | String c s' =>
      match digit_val c with
      | Some d =>
          if (d <? radix)%Z
          then digits radix s'
                 (Some (radix * match acc with Some a => a | None => 0 end + d)%Z)
          else acc
      | None => acc
      end
  end.

(** The mathematical integer [parseInt(s)] reads, with no radix argument:
    leading white space, an optional sign, an optional [0x]/[0X] prefix
    that selects radix 16, then the longest prefix of digits; [None] when
    there is no digit.  Strings are byte strings, so the white space
    skipped is the ASCII one.  The number [parseInt] returns is this
    integer rounded to a double, see [to_double]. *)
Definition parse_int (s : string) : option Z :=
  let s1 := skip_ws s in
  let '(sign, s2) :=
    match s1 with
    | String "-" r => ((-1)%Z, r)
    | String "+" r => (1%Z, r)
    | _ => (1%Z, s1)
    end in
  let '(radix, s3) :=
    match s2 with
    | String "0" (String "x" r) => (16%Z, r)
    | String "0" (String "X" r) => (16%Z, r)
    | _ => (10%Z, s2)
    end in
  option_map (Z.mul sign) (digits radix s3 None).

(** The integer value of the double nearest to the integer [n], ties to
    even.  An integer up to 2^53 in magnitude is a double and is kept;
    beyond, the 53 leading bits are kept and the rest is rounded away.
    An integer that rounds to 2^1024 or more, which JavaScript turns into
    [Infinity], is outside the model. *)
Definition to_double (n : Z) : Z :=
  let a := Z.abs n in
  if (a <=? 2 ^ 53)%Z then n
  else
    let e := (Z.log2 a - 52)%Z in
    let q := (a / 2 ^ e)%Z in
    let r := (a mod 2 ^ e)%Z in
    let half := (2 ^ (e - 1))%Z in
    let up := (half <? r)%Z || ((r =? half)%Z && Z.odd q) in
    (Z.sgn n * ((if up then q + 1 else q) * 2 ^ e))%Z.

(** [parseInt(v)]: the argument is converted to a string first, and the
    integer read is returned as a number, that is rounded to a double;
    [NaN] when there is no digit. *)
Definition parseInt (v : Val) : Val :=
  match parse_int (ToString v) with
  | Some n => num (to_double n)
  | None => VNaN
  end.

Definition is_digit (c : ascii) : bool :=
  let n := Z.of_nat (nat_of_ascii c) in ((48 <=? n) && (n <=? 57))%Z.

(** [\d{4}-\d{2}-\d{2}] matched at the start of [s]. *)
Definition match_here (s : string) : bool :=
  match s with
  | String y1 (String y2 (String y3 (String y4 (String h1
      (String m1 (String m2 (String h2 (String d1 (String d2 _))))))))) =>
      is_digit y1 && is_digit y2 && is_digit y3 && is_digit y4
      && Ascii.eqb h1 "-" && is_digit m1 && is_digit m2
      && Ascii.eqb h2 "-" && is_digit d1 && is_digit d2
  | _ => false
  end.

(** [EXPIRATION_REGEX.test(s)]: the pattern is not anchored, so it is
    searched for at every position of [s]. *)
Fixpoint EXPIRATION_REGEX_test (s : string) : bool :=
  match_here s ||
  match s with
  | EmptyString => false
  | String _ s' => EXPIRATION_REGEX_test s'
  end.

(** ** The world a handler runs in *)

(** One call of [response.end()] or [response.json(v)]: the status line at
    the time of the call and, for [json], the value sent as the body. *)
Record Write : Type := mkWrite {
  w_status : Z;
  w_message : option string;
  w_body : option Val
}.

(** The response object of the request.  [writes] lists, oldest first,
    every call that writes the response.  Node transmits the first of them
    and drops a later [end()]. *)
Record Response : Type := mkResponse {
  statusCode : Z;
  statusMessage : option string;
  writes : list Write
}.

Definition fresh_response : Response := mkResponse 200 None [].

(** What the client receives. *)
Definition delivered (r : Response) : option Write := hd_error (writes r).

(** A row of the PANTRY table. *)
Record Row : Type := mkRow {
  r_id : Z;
  r_name : string;
  r_expiration : string;
  r_quantity : Q
}.

(** The database: the table, the id the next insert is given, and the
    faults to come.  Each statement consumes the head of [faults]:
    [Some e] makes that statement fail with error [e] (a lost connection,
    a statement the server rejects), [None] or an empty list lets it run. *)
Record Db : Type := mkDb {
  table : list Row;
  next_id : Z;
  faults : list (option string)
}.

Record World : Type := mkWorld {
  db : Db;
  response : Response;
  console : list Val
}.

Definition serving (d : Db) : World := mkWorld d fresh_response [].

(** ** The monad: state and exceptions *)

Inductive Outcome (A : Type) : Type :=
| Returned (a : A)
| Thrown (e : string).
Arguments Returned {A} a.
Arguments Thrown {A} e.

Definition M (A : Type) : Type := World -> Outcome A * World.

Definition ret {A : Type} (a : A) : M A := fun w => (Returned a, w).

Definition throw {A : Type} (e : string) : M A := fun w => (Thrown e, w).

Definition bind {A B : Type} (c : M A) (k : A -> M B) : M B :=
  fun w =>
    match c w with
    | (Returned a, w') => k a w'
    | (Thrown e, w') => (Thrown e, w')
    end.

Notation "x <- c1 ;; c2" := (bind c1 (fun x => c2))
  (at level 61, c1 at next level, right associativity).
Notation "c1 ;; c2" := (bind c1 (fun _ => c2))
  (at level 61, right associativity).

Definition update_response (f : Response -> Response) : M unit :=
  fun w => (Returned tt, mkWorld (db w) (f (response w)) (console w)).

(** [response.statusCode = n] *)
Definition set_statusCode (n : Z) : M unit :=
  update_response (fun r => mkResponse n (statusMessage r) (writes r)).

(** [response.statusMessage = s] *)
Definition set_statusMessage (s : string) : M unit :=
  update_response (fun r => mkResponse (statusCode r) (Some s) (writes r)).

Definition write (body : option Val) : M unit :=
  update_response (fun r =>
    mkResponse (statusCode r) (statusMessage r)
      (writes r ++ [mkWrite (statusCode r) (statusMessage r) body])).

(** [response.end()] *)
Definition response_end : M unit := write None.

(** [response.json(v)] *)
Definition response_json (v : Val) : M unit := write (Some v).

(** [console.log(v)] *)
Definition console_log (v : Val) : M unit :=
  fun w => (Returned tt, mkWorld (db w) (response w) (console w ++ [v])).

(** [v.k]: reading a property of [undefined] or [null] throws; a primitive
    has none of the properties the code reads. *)
Definition get (v : Val) (k : string) : M Val :=
  match v with
  | VUndef => throw ("TypeError: Cannot read property '" ++ k ++ "' of undefined")
  | VNull => throw ("TypeError: Cannot read property '" ++ k ++ "' of null")
  | VObj fs => ret (lookup k fs)
  | _ => ret VUndef
  end.

(** [v.k = x], giving the object after the assignment; on a primitive the
    assignment is dropped. *)
Definition set (v : Val) (k : string) (x : Val) : M Val :=
  match v with
  | VUndef => throw ("TypeError: Cannot set property '" ++ k ++ "' of undefined")
  | VNull => throw ("TypeError: Cannot set property '" ++ k ++ "' of null")
  | VObj fs => ret (VObj (assign k x fs))
  | _ => ret v
  end.

(** [v[0]] *)
Definition first (v : Val) : M Val :=
  match v with
  | VUndef => throw "TypeError: Cannot read property '0' of undefined"
  | VNull => throw "TypeError: Cannot read property '0' of null"
  | VArr (x :: _) => ret x
  | _ => ret VUndef
  end.

Fixpoint mapM (f : Val -> M Val) (xs : list Val) : M (list Val) :=
  match xs with
  | [] => ret []
  | x :: xs' => y <- f x ;; ys <- mapM f xs' ;; ret (y :: ys)
  end.

(** [v.map(f)] *)
Definition array_map (v : Val) (f : Val -> M Val) : M Val :=
  match v with
  | VUndef => throw "TypeError: Cannot read property 'map' of undefined"
  | VNull => throw "TypeError: Cannot read property 'map' of null"
  | VArr xs => ys <- mapM f xs ;; ret (VArr ys)
  | _ => throw "TypeError: map is not a function"
  end.

(** ** The database client *)

(** The five statements the code sends, named after their SQL text. *)
Inductive Query : Type :=
| INSERT_PANTRY   (* INSERT INTO PANTRY (NAME, EXPIRATION, QUANTITY)
                     VALUES ($1, $2, $3) RETURNING ID *)
| COUNT_BY_ID     (* SELECT COUNT( * ) FROM PANTRY WHERE ID = $1 *)
| UPDATE_BY_ID    (* UPDATE PANTRY SET NAME = $1, EXPIRATION = $2,
                     QUANTITY = $3 WHERE ID = $4 *)
| DELETE_BY_ID    (* DELETE FROM PANTRY WHERE ID = $1 *)
| SELECT_ALL.     (* SELECT NAME as name, QUANTITY as quantity,
                     EXPIRATION as expiration, ID as id FROM PANTRY *)

(** A parameter bound to a text or date column. *)
Definition bind_text (v : Val) : option string :=
  match v with
  | VStr s => Some s
  | _ => None
  end.

(** A parameter bound to a numeric column. *)
Definition bind_num (v : Val) : option Q :=
  match v with
  | VNum q => Some q
  | _ => None
  end.

Definition has_id (q : Q) (r : Row) : bool := Qeq_bool (inject_Z (r_id r)) q.

(** The rows [WHERE ID = $1] selects: [undefined] and [null] are sent as
    SQL NULL, which no id equals. *)
Definition where_id (v : Val) (t : list Row) : option (list Row) :=
  match v with
  | VUndef | VNull => Some []
  | VNum q => Some (filter (has_id q) t)
  | _ => None
  end.

(** A row as the client hands it to JavaScript; a DATE column arrives as
    a [Date] object. *)
Definition row_object (r : Row) : Val :=
  VObj [("name", VStr (r_name r)); ("quantity", VNum (r_quantity r));
        ("expiration", VDate (r_expiration r)); ("id", num (r_id r))].

Definition result_of (rows : list Val) : Val := VObj [("rows", VArr rows)].

Definition bad_parameter : string := "could not bind the parameters".

(** Modelled from the spec: the PANTRY table and the statements run on it
    live in the database server, outside the repository.  The table has
    the columns ID (assigned by the database), NAME, EXPIRATION and
    QUANTITY, and each of the five statements does what its SQL text says.
    COUNT comes back as text, as the client delivers a bigint.  A
    parameter of the wrong kind makes the statement fail; the model does
    not check that a date is a calendar date or that a quantity is whole:
    a server that refuses such a value is a fault of [faults].

    [exec q params t n] runs [q] on table [t] with next id [n] and gives
    the error, or the result object with the new table and next id. *)
Definition exec (q : Query) (params : list Val) (t : list Row) (n : Z)
  : string + (Val * list Row * Z) :=
  match q, params with
  | INSERT_PANTRY, [name; expiration; quantity] =>
      match bind_text name, bind_text expiration, bind_num quantity with
      | Some nm, Some ex, Some qt =>
          inr (result_of [VObj [("id", num n)]],
               (t ++ [mkRow n nm ex qt])%list, (n + 1)%Z)
      | _, _, _ => inl bad_parameter
      end
  | COUNT_BY_ID, [id] =>
      match where_id id t with
      | Some rs =>
          inr (result_of
                 [VObj [("count", VStr (string_of_Z (Z.of_nat (List.length rs))))]],
               t, n)
      | None => inl bad_parameter
      end
  | UPDATE_BY_ID, [name; expiration; quantity; id] =>
      match bind_text name, bind_text expiration, bind_num quantity, id with
      | Some nm, Some ex, Some qt, VNum i =>
          inr (result_of [],
               map (fun r => if has_id i r then mkRow (r_id r) nm ex qt else r) t,
               n)
      | Some _, Some _, Some _, (VUndef | VNull) => inr (result_of [], t, n)
      | _, _, _, _ => inl bad_parameter
      end
  | DELETE_BY_ID, [id] =>
      match id with
      | VNum i => inr (result_of [], filter (fun r => negb (has_id i r)) t, n)
      | VUndef | VNull => inr (result_of [], t, n)
      | _ => inl bad_parameter
      end
  | SELECT_ALL, [] => inr (result_of (map row_object t), t, n)
  | _, _ => inl bad_parameter
  end.

(** [db.query(q, params, callback)].  The client calls [callback(err)]
    when the statement fails, so the callback's second argument is then
    [undefined], and [callback(null, result)] when it succeeds. *)
Definition db_query (q : Query) (params : list Val)
    (callback : Val -> Val -> M unit) : M unit :=
  fun w =>
    let d := db w in
    let world t n := mkWorld (mkDb t n (tl (faults d))) (response w) (console w) in
    match faults d with
    | Some e :: _ => callback (VError e) VUndef (world (table d) (next_id d))
    | _ =>
        match exec q params (table d) (next_id d) with
        | inl e => callback (VError e) VUndef (world (table d) (next_id d))
        | inr (result, t, n) => callback VNull result (world t n)
        end
    end.

(** ** Response shaping (lines 44-57) *)

Definition internalError (error : Val) : M unit :=
  set_statusCode 500 ;;
  set_statusMessage "Internal Error." ;;
  response_end ;;
  console_log error.

Definition userError (error : string) : M unit :=
  set_statusCode 400 ;;
  set_statusMessage error ;;
  response_end.

(** ** Data access (lines 59-142) *)

Definition insertItem (item : Val) (callback : Val -> Val -> M unit) : M unit :=
  name <- get item "name" ;;
  expiration <- get item "expiration" ;;
  quantity <- get item "quantity" ;;
  db_query INSERT_PANTRY [name; expiration; quantity] (fun err result =>
    rows <- get result "rows" ;;
    row <- first rows ;;
    id <- get row "id" ;;
    item <- set item "id" id ;;
    callback err item).

Definition itemExists (item : Val) (callback : Val -> M unit) : M unit :=
  id <- get item "id" ;;
  db_query COUNT_BY_ID [id] (fun err result =>
    rows <- get result "rows" ;;
    row <- first rows ;;
    callback (VBool (strict_eq row (num 1)))).

Definition absent : Val := VObj [("present", VBool false); ("item", VUndef)].

Definition updateItem (item : Val) (callback : Val -> Val -> M unit) : M unit :=
  itemExists item (fun exists_ =>
    if negb (truthy exists_) then callback VUndef absent
    else
      name <- get item "name" ;;
      expiration <- get item "expiration" ;;
      quantity <- get item "quantity" ;;
      id <- get item "id" ;;
      db_query UPDATE_BY_ID [name; expiration; quantity; id] (fun err result =>
        callback err item)).

Definition deleteItem (item : Val) (callback : Val -> Val -> M unit) : M unit :=
  itemExists item (fun exists_ =>
    if negb (truthy exists_) then callback VUndef absent
    else
      id <- get item "id" ;;
      db_query DELETE_BY_ID [id] (fun err result =>
        callback err item)).

(** [v.toLocaleDateString()], with the runtime's formatting of a date as a
    parameter: it depends on the locale of the process. *)
Definition call_toLocaleDateString (locale : string -> string) (v : Val)
  : M Val :=
  match v with
  | VDate iso => ret (VStr (locale iso))
  | VUndef =>
      throw "TypeError: Cannot read property 'toLocaleDateString' of undefined"
  | VNull =>
      throw "TypeError: Cannot read property 'toLocaleDateString' of null"
  | _ => throw "TypeError: toLocaleDateString is not a function"
  end.

Section Locale.

(** The runtime's [Date.prototype.toLocaleDateString], from the ISO text
    of the date to its rendering in the locale of the process. *)
Variable toLocaleDateString : string -> string.

Definition dateObjectToString (item : Val) : M Val :=
  expiration <- get item "expiration" ;;
  text <- call_toLocaleDateString toLocaleDateString expiration ;;
  set item "expiration" text.

Definition getItems (callback : Val -> Val -> M unit) : M unit :=
  db_query SELECT_ALL [] (fun err result =>
    rows <- get result "rows" ;;
    items <- array_map rows dateObjectToString ;;
    callback err items).

End Locale.

(** ** Validation (lines 144-221) *)

(** A request as the handlers see it: the parsed JSON body and the path
    parameters. *)
Record Request : Type := mkRequest {
  body : Val;
  params : Val
}.

Definition getValidateName (request : Request) : M Val :=
  name <- get (body request) "name" ;;
  if negb (truthy name) then
    userError "name was undefined." ;; ret VUndef
  else if negb (typeof name =? "string")%string
          || (str_length name =? 0)%nat then
    userError "name was not a string or was empty." ;; ret VUndef
  else ret name.

Definition getValidatedQuantity (request : Request) : M Val :=
  quantity <- get (body request) "quantity" ;;
  if negb (truthy quantity) then
    userError "quantity was undefined." ;; ret VUndef
  else if negb (typeof quantity =? "number")%string || lt_one quantity then
    userError "quantity was not a number or was less than 1." ;; ret VUndef
  else ret quantity.

Definition getValidatedExpiration (request : Request) : M Val :=
  expiration <- get (body request) "expiration" ;;
  if negb (truthy expiration) then
    userError "expiration was undefined." ;; ret VUndef
  else if negb (typeof expiration =? "string")%string
          || negb (EXPIRATION_REGEX_test (ToString expiration)) then
    userError ("expiration date was not a string " ++
               "or it was not of the format YYYY-MM-DD.") ;; ret VUndef
  else ret expiration.

Definition getValidatedId (request : Request) : M Val :=
  id <- get (params request) "id" ;;
  if negb (truthy id) then
    userError "id was undefined." ;; ret VUndef
  else
    let id := parseInt id in
    if isNaN id then
      userError "id was not a number." ;; ret VUndef
    else ret id.

(** ** Request handlers (lines 223-318) *)

Section Routes.

Variable toLocaleDateString : string -> string.

(** GET / *)
Definition app_get_root (request : Request) : M unit :=
  getItems toLocaleDateString (fun err items =>
    if truthy err then internalError err
    else response_json items).

End Routes.

(** POST / *)
Definition app_post_root (request : Request) : M unit :=
  name <- getValidateName request ;;
  quantity <- getValidatedQuantity request ;;
  expiration <- getValidatedExpiration request ;;
  if negb (truthy name) || negb (truthy quantity) || negb (truthy expiration)
  then ret tt
  else
    let item := VObj [("name", name); ("quantity", quantity);
                      ("expiration", expiration)] in
    insertItem item (fun err item =>
      if truthy err then internalError err
      else response_json item).

Definition not_found (id : Val) : string :=
  "Item with id " ++ ToString id ++ " not found.".

(** DELETE /:id *)
Definition app_delete_id (request : Request) : M unit :=
  id <- getValidatedId request ;;
  if negb (truthy id) then ret tt
  else
    deleteItem id (fun err result =>
      if truthy err then internalError err
      else
        present <- get result "present" ;;
        if negb (truthy present) then userError (not_found id)
        else
          item <- get result "item" ;;
          response_json item).

(** POST /:id *)
Definition app_post_id (request : Request) : M unit :=
  name <- getValidateName request ;;
  quantity <- getValidatedQuantity request ;;
  expiration <- getValidatedExpiration request ;;
  id <- getValidatedId request ;;
  if negb (truthy name) || negb (truthy quantity) || negb (truthy expiration)
     || negb (truthy id)
  then ret tt
  else
    let item := VObj [("name", name); ("quantity", quantity);
                      ("expiration", expiration); ("id", id)] in
    updateItem item (fun err result =>
      if truthy err then internalError err
      else
        present <- get result "present" ;;
        if negb (truthy present) then userError (not_found id)
        else
          item <- get result "item" ;;
          response_json item).

(** ** Sample data *)

Definition rice : Row := mkRow 1 "Rice" "2025-01-01" (2 # 1).

Definition pantry (t : list Row) (n : Z) : Db := mkDb t n [].

Definition payload (name : string) (quantity : Q) (expiration : string) : Val :=
  VObj [("name", VStr name); ("quantity", VNum quantity);
        ("expiration", VStr expiration)].

Definition path_id (s : string) : Val := VObj [("id", VStr s)].

Definition strip_zero (s : string) : string :=
  match s with
  | String "0" r => r
  | _ => s
  end.

(** The rendering of the en-US locale, month/day/year without padding:
    what [toLocaleDateString()] gives where no locale is configured. *)
Definition en_US (iso : string) : string :=
  strip_zero (substring 5 2 iso) ++ "/" ++ strip_zero (substring 8 2 iso)
  ++ "/" ++ substring 0 4 iso.


(** ** Running a handler *)

(** The world after handler [h] has served a request on database [d]. *)
Definition run (h : M unit) (d : Db) : World := snd (h (serving d)).

(** The status codes of the responses written, oldest first. *)
Definition statuses (w : World) : list Z := map w_status (writes (response w)).

(** The fault the next statement meets, if any. *)
Definition next_fault (d : Db) : option string :=
  match faults d with
  | Some e :: _ => Some e
  | _ => None
  end.

(** The world once a statement that changes nothing has been answered. *)
Definition answered (w : World) : World :=
  mkWorld (mkDb (table (db w)) (next_id (db w)) (tl (faults (db w))))
    (response w) (console w).

(** The world after [userError(response, error)]. *)
Definition refused (error : string) (w : World) : World :=
  mkWorld (db w)
    (mkResponse 400 (Some error)
       (writes (response w) ++ [mkWrite 400 (Some error) None]))
    (console w).

(** The response [userError] leaves when it is the only one written. *)
Definition refusal (error : string) : Response :=
  mkResponse 400 (Some error) [mkWrite 400 (Some error) None].

(** A number is whole when its reduced denominator is 1. *)
Definition is_integer (q : Q) : bool :=
  match Qden (Qred q) with
  | xH => true
  | _ => false
  end.

(** The item GET / lists for a row under a given date rendering. *)
Definition listed (locale : string -> string) (r : Row) : Val :=
  VObj [("name", VStr (r_name r)); ("quantity", VNum (r_quantity r));
        ("expiration", VStr (locale (r_expiration r))); ("id", num (r_id r))].

(** ** Configuration (lines 6-18) *)

(** [process.env]: the variables that are set, with their values. *)
Definition Env : Type := list (string * string).

(** [process.env[name]] *)
Fixpoint env_get (env : Env) (name : string) : Val :=
  match env with
  | [] => VUndef
  | (k, v) :: env' => if (name =? k)%string then VStr v else env_get env' name
  end.

Definition getFromEnv (env : Env) (name : string) : Outcome Val :=
  let ret := env_get env name in
  if negb (truthy ret) then Thrown (name ++ " was not set!")
  else Returned ret.

(** The two constants the module reads when it is loaded, [PORT] first. *)
Definition configuration (env : Env) : Outcome (Val * Val) :=
  match getFromEnv env "PORT" with
  | Thrown e => Thrown e
  | Returned PORT =>
      match getFromEnv env "DATABASE_URL" with
      | Thrown e => Thrown e
      | Returned DATABASE_URL => Returned (PORT, DATABASE_URL)
      end
  end.

(** ** Vocabulary of the properties *)

(** A text of the shape dddd-dd-dd and nothing else. *)
Definition date_shaped (d : string) : Prop :=
  match_here d = true /\ String.length d = 10%nat.

(** What a validator can do to the world [w]: accept a value and leave the
    world alone, refuse with one 400 response, or throw before it writes. *)
Inductive validation (w : World) : Outcome Val * World -> Prop :=
| accepts (v : Val) : truthy v = true -> validation w (Returned v, w)
| refuses (error : string) : validation w (Returned VUndef, refused error w)
| throws (e : string) : validation w (Thrown e, w).

(** No response carries the status 500 and nothing was logged. *)
Definition quiet (w : World) : Prop :=
  console w = []
  /\ statusCode (response w) <> 500%Z
  /\ Forall (fun x => w_status x <> 500%Z) (writes (response w)).

(** The first character of [t], if any, is not a decimal digit. *)
Definition no_leading_digit (t : string) : Prop :=
  match t with
  | EmptyString => True
  | String c _ => is_digit c = false
  end.

(** [t] does not start with [x] or [X]. *)
Definition no_leading_x (t : string) : Prop :=
  match t with
  | EmptyString => True
  | String c _ => c <> "x"%char /\ c <> "X"%char
  end.

(** The table and the next id are [t] and [n], every response written so
    far is a 400, and nothing was logged. *)
Definition refusing (t : list Row) (n : Z) (w : World) : Prop :=
  table (db w) = t /\ next_id (db w) = n
  /\ Forall (eq 400%Z) (statuses w) /\ console w = [].

(** ** One response on the wire *)





(** * Properties *)

(** ** Values *)

Lemma Qred_inject_Z (n : Z) : Qred (inject_Z n) = inject_Z n.
Proof.
  apply Qcanon.Qred_identity. simpl. apply Z.gcd_1_r.
Qed.

Lemma ToString_num (n : Z) : ToString (num n) = string_of_Z n.
Proof.
  unfold ToString, num. rewrite Qred_inject_Z. reflexivity.
Qed.

Lemma truthy_num (n : Z) : truthy (num n) = negb (n =? 0)%Z.
Proof.
  unfold truthy, num, Qeq_bool, inject_Z. simpl.
  rewrite Z.mul_1_r. reflexivity.
Qed.

Lemma truthy_at_least_one (q : Q) : (1 <= q)%Q -> truthy (VNum q) = true.
Proof.
  intro H. simpl. destruct (Qeq_bool q 0) eqn:E; [|reflexivity].
  apply Qeq_bool_iff in E. rewrite E in H.
  unfold Qle in H. simpl in H. lia.
Qed.

Lemma lt_one_at_least_one (q : Q) : (1 <= q)%Q -> lt_one (VNum q) = false.
Proof.
  intro H. simpl. apply Qle_bool_iff in H. rewrite H. reflexivity.
Qed.

Lemma lt_one_below (q : Q) : (q < 1)%Q -> lt_one (VNum q) = true.
Proof.
  intro H. simpl. destruct (Qle_bool 1 q) eqn:E; [|reflexivity].
  apply Qle_bool_iff in E. exfalso. exact (Qlt_not_le _ _ H E).
Qed.

Lemma parse_int_nonempty (s : string) (n : Z) :
  parse_int s = Some n -> truthy (VStr s) = true.
Proof.
  destruct s; [discriminate | reflexivity].
Qed.

Lemma to_double_safe (n : Z) : (Z.abs n <= 2 ^ 53)%Z -> to_double n = n.
Proof.
  intro B. unfold to_double. apply Z.leb_le in B. rewrite B. reflexivity.
Qed.

(** Beyond 2^53 the number is the nearest double, not the integer read. *)
Lemma parseInt_rounds_to_double :
  parseInt (VStr "9007199254740993") = num 9007199254740992
  /\ parseInt (VStr "9007199254740995") = num 9007199254740996.
Proof. split; reflexivity. Qed.

Lemma parseInt_path (s : string) (n : Z) :
  parse_int s = Some n -> (Z.abs n <= 2 ^ 53)%Z -> parseInt (VStr s) = num n.
Proof.
  intros H B. unfold parseInt. change (ToString (VStr s)) with s.
  rewrite H, (to_double_safe n B). reflexivity.
Qed.

(** ** The database client *)

Lemma db_query_answers q ps k d r c res t n :
  next_fault d = None ->
  exec q ps (table d) (next_id d) = inr (res, t, n) ->
  db_query q ps k (mkWorld d r c)
  = k VNull res (mkWorld (mkDb t n (tl (faults d))) r c).
Proof.
  unfold next_fault, db_query. simpl. intros F E. rewrite E.
  destruct (faults d) as [|[e|] fs]; try discriminate; reflexivity.
Qed.

Lemma db_query_fails q ps k t n e fs r c :
  db_query q ps k (mkWorld (mkDb t n (Some e :: fs)) r c)
  = k (VError e) VUndef (mkWorld (mkDb t n fs) r c).
Proof. reflexivity. Qed.

(** ** The existence check *)

(** Whatever the table holds, a count that the database answers is handed
    to the callback as [false]: the row object is compared with [1]. *)
Lemma itemExists_answers_false item id callback w :
  get item "id" w = (Returned id, w) ->
  next_fault (db w) = None ->
  where_id id (table (db w)) <> None ->
  itemExists item callback w = callback (VBool false) (answered w).
Proof.
  intros G F W. unfold itemExists, bind. rewrite G.
  destruct w as [d r c]. simpl in *.
  destruct (where_id id (table d)) as [rs|] eqn:E; [|congruence].
  erewrite db_query_answers; [| exact F | simpl; rewrite E; reflexivity].
  reflexivity.
Qed.

(** ** Validators on a well-formed field *)

Lemma get_field fs k w : get (VObj fs) k w = (Returned (lookup k fs), w).
Proof. reflexivity. Qed.

Lemma getValidateName_accepts fs prm nm w :
  lookup "name" fs = VStr nm -> nm <> "" ->
  getValidateName (mkRequest (VObj fs) prm) w = (Returned (VStr nm), w).
Proof.
  intros L N. unfold getValidateName, bind. simpl body.
  rewrite get_field, L. destruct nm; [congruence | reflexivity].
Qed.

Lemma getValidatedQuantity_accepts fs prm q w :
  lookup "quantity" fs = VNum q -> (1 <= q)%Q ->
  getValidatedQuantity (mkRequest (VObj fs) prm) w = (Returned (VNum q), w).
Proof.
  intros L H. unfold getValidatedQuantity, bind. simpl body.
  rewrite get_field, L.
  rewrite (truthy_at_least_one q H), (lt_one_at_least_one q H).
  reflexivity.
Qed.

Lemma getValidatedExpiration_accepts fs prm e w :
  lookup "expiration" fs = VStr e -> EXPIRATION_REGEX_test e = true ->
  getValidatedExpiration (mkRequest (VObj fs) prm) w = (Returned (VStr e), w).
Proof.
  intros L H. unfold getValidatedExpiration, bind. simpl body.
  rewrite get_field, L.
  assert (T : truthy (VStr e) = true)
    by (destruct e; [discriminate H | reflexivity]).
  rewrite T. simpl. rewrite H. reflexivity.
Qed.

Lemma getValidatedId_accepts b s n w :
  parse_int s = Some n -> (Z.abs n <= 2 ^ 53)%Z ->
  getValidatedId (mkRequest b (path_id s)) w = (Returned (num n), w).
Proof.
  intros H B. unfold getValidatedId, bind, path_id. simpl params.
  rewrite get_field.
  change (lookup "id" [("id", VStr s)]) with (VStr s).
  rewrite (parse_int_nonempty s n H), (parseInt_path s n H B).
  reflexivity.
Qed.

(** ** C1: the existence check *)

(** C1 (code defect).  The claim: [itemExists] answers true exactly when a
    row with the id is in the table.  Here the table holds the row with
    id 1 and [itemExists] is asked about id 1: the callback is called with
    [false].  The count row [{count: "1"}] is compared with the number 1
    by [===], which is false for every row object. *)
Theorem itemExists_misses_stored_row :
  forall callback : Val -> M unit,
    itemExists (VObj [("id", num 1)]) callback (serving (pantry [rice] 2))
    = callback (VBool false) (serving (pantry [rice] 2)).
Proof. intro callback. reflexivity. Qed.

(** ** C2, C3, C4: update and delete *)

Lemma updateItem_reports_absent item id callback w :
  get item "id" w = (Returned id, w) ->
  next_fault (db w) = None ->
  where_id id (table (db w)) <> None ->
  updateItem item callback w = callback VUndef absent (answered w).
Proof.
  intros G F W. unfold updateItem.
  rewrite (itemExists_answers_false item id _ w G F W). reflexivity.
Qed.

Lemma deleteItem_reports_absent item id callback w :
  get item "id" w = (Returned id, w) ->
  next_fault (db w) = None ->
  where_id id (table (db w)) <> None ->
  deleteItem item callback w = callback VUndef absent (answered w).
Proof.
  intros G F W. unfold deleteItem.
  rewrite (itemExists_answers_false item id _ w G F W). reflexivity.
Qed.

(** DELETE /:id with an id that parses to a non-zero integer, on a
    database that answers: 400 "not found", whatever the table holds. *)
Lemma app_delete_id_refuses b s i t n fl :
  parse_int s = Some i -> i <> 0%Z -> (Z.abs i <= 2 ^ 53)%Z ->
  next_fault (mkDb t n fl) = None ->
  app_delete_id (mkRequest b (path_id s)) (serving (mkDb t n fl))
  = (Returned tt,
     mkWorld (mkDb t n (tl fl))
       (refusal ("Item with id " ++ string_of_Z i ++ " not found.")) []).
Proof.
  intros P NZ B F. unfold app_delete_id, bind at 1.
  rewrite (getValidatedId_accepts b s i _ P B). cbv beta iota.
  rewrite truthy_num. destruct (Z.eqb_spec i 0) as [|_]; [contradiction|].
  cbv beta iota delta [negb].
  rewrite (deleteItem_reports_absent (num i) VUndef);
    [| reflexivity | exact F | discriminate].
  unfold not_found. rewrite ToString_num. reflexivity.
Qed.

(** POST /:id with fields that pass validation and an id that parses to a
    non-zero integer, on a database that answers: 400 "not found",
    whatever the table holds. *)
Lemma app_post_id_refuses fs nm q e s i t n fl :
  lookup "name" fs = VStr nm -> nm <> "" ->
  lookup "quantity" fs = VNum q -> (1 <= q)%Q ->
  lookup "expiration" fs = VStr e -> EXPIRATION_REGEX_test e = true ->
  parse_int s = Some i -> i <> 0%Z -> (Z.abs i <= 2 ^ 53)%Z ->
  next_fault (mkDb t n fl) = None ->
  app_post_id (mkRequest (VObj fs) (path_id s)) (serving (mkDb t n fl))
  = (Returned tt,
     mkWorld (mkDb t n (tl fl))
       (refusal ("Item with id " ++ string_of_Z i ++ " not found.")) []).
Proof.
  intros Ln Nn Lq Hq Le He P NZ B F. unfold app_post_id.
  unfold bind at 1. rewrite (getValidateName_accepts fs _ nm _ Ln Nn).
  cbv beta iota.
  unfold bind at 1. rewrite (getValidatedQuantity_accepts fs _ q _ Lq Hq).
  cbv beta iota.
  unfold bind at 1. rewrite (getValidatedExpiration_accepts fs _ e _ Le He).
  cbv beta iota.
  unfold bind at 1. rewrite (getValidatedId_accepts _ s i _ P B).
  cbv beta iota.
  rewrite (truthy_at_least_one q Hq), truthy_num.
  destruct (Z.eqb_spec i 0) as [|_]; [contradiction|].
  assert (Tn : truthy (VStr nm) = true)
    by (destruct nm; [congruence | reflexivity]).
  assert (Te : truthy (VStr e) = true)
    by (destruct e; [discriminate He | reflexivity]).
  rewrite Tn, Te. cbv beta iota delta [negb orb].
  rewrite (updateItem_reports_absent _ (num i));
    [| reflexivity | exact F | discriminate].
  unfold not_found. rewrite ToString_num. reflexivity.
Qed.

(** C2 (code defect).  The claim: POST /:id on an existing id with a
    payload that passes validation overwrites the row, answers 200 with
    the updated item, and a later GET / shows the update.  Here the table
    holds Rice under id 1 and POST /1 carries Beans: the answer is 400
    "Item with id 1 not found.", the row is untouched, and a later GET /
    still lists Rice.  [updateItem] relies on [itemExists], which never
    answers true. *)
Theorem update_of_stored_row_is_refused :
  forall locale : string -> string,
    app_post_id (mkRequest (payload "Beans" (3 # 1) "2026-02-02") (path_id "1"))
      (serving (pantry [rice] 2))
    = (Returned tt,
       mkWorld (pantry [rice] 2) (refusal "Item with id 1 not found.") [])
    /\ writes (response
         (run (app_get_root locale (mkRequest VUndef (VObj [])))
              (pantry [rice] 2)))
       = [mkWrite 200 None (Some (VArr [listed locale rice]))].
Proof. intro locale. split; reflexivity. Qed.

(** C3 (code defect).  The claim: DELETE /:id on an existing id removes
    the row, answers 200 with the deleted item, and a later GET / no
    longer shows it.  Here the table holds Rice under id 1 and DELETE /1
    is served: the answer is 400 "Item with id 1 not found.", the row
    stays, and a later GET / still lists it.  The handler passes the bare
    id to [deleteItem], whose [item.id] is then [undefined], and
    [itemExists] never answers true. *)
Theorem delete_of_stored_row_is_refused :
  forall locale : string -> string,
    app_delete_id (mkRequest VUndef (path_id "1")) (serving (pantry [rice] 2))
    = (Returned tt,
       mkWorld (pantry [rice] 2) (refusal "Item with id 1 not found.") [])
    /\ writes (response
         (run (app_get_root locale (mkRequest VUndef (VObj [])))
              (pantry [rice] 2)))
       = [mkWrite 200 None (Some (VArr [listed locale rice]))].
Proof. intro locale. split; reflexivity. Qed.

(** C4, as stated, fails: DELETE /5 and POST /5 on a table with no row 5
    are answered with status 400, not 404. *)
Lemma missing_id_status_is_400 :
  statuses (run (app_delete_id (mkRequest VUndef (path_id "5")))
                (pantry [rice] 2)) = [400%Z]
  /\ statuses (run (app_post_id
                      (mkRequest (payload "Beans" (3 # 1) "2026-02-02")
                                 (path_id "5")))
                   (pantry [rice] 2)) = [400%Z].
Proof. split; reflexivity. Qed.

(** C4 (amended).  For an id that parses to a non-zero integer of
    magnitude at most 2^53, which [parseInt] returns exactly, and that
    matches no row, on a database that answers, DELETE /:id and (with a
    payload that passes validation) POST /:id write one response, with
    status 400 and message "Item with id <id> not found.", and leave the
    table and the next id as they were. *)
Theorem missing_id_is_refused_with_400 :
  forall (t : list Row) (n : Z) (fl : list (option string))
         (s : string) (i : Z) (b : Val)
         (fs : list (string * Val)) (nm e : string) (q : Q),
    parse_int s = Some i -> i <> 0%Z -> (Z.abs i <= 2 ^ 53)%Z ->
    (forall r, In r t -> r_id r <> i) ->
    next_fault (mkDb t n fl) = None ->
    lookup "name" fs = VStr nm -> nm <> "" ->
    lookup "quantity" fs = VNum q -> (1 <= q)%Q ->
    lookup "expiration" fs = VStr e -> EXPIRATION_REGEX_test e = true ->
    app_delete_id (mkRequest b (path_id s)) (serving (mkDb t n fl))
    = (Returned tt,
       mkWorld (mkDb t n (tl fl))
         (refusal ("Item with id " ++ string_of_Z i ++ " not found.")) [])
    /\ app_post_id (mkRequest (VObj fs) (path_id s)) (serving (mkDb t n fl))
       = (Returned tt,
          mkWorld (mkDb t n (tl fl))
            (refusal ("Item with id " ++ string_of_Z i ++ " not found.")) []).
Proof.
  intros t n fl s i b fs nm e q P NZ B _ F Ln Nn Lq Hq Le He. split.
  - exact (app_delete_id_refuses b s i t n fl P NZ B F).
  - exact (app_post_id_refuses fs nm q e s i t n fl Ln Nn Lq Hq Le He P NZ B F).
Qed.

(** The amended C4 at DELETE /5 and POST /5 over the table that holds Rice
    under id 1. *)
Lemma missing_id_is_refused_with_400_witness :
  app_delete_id (mkRequest VUndef (path_id "5")) (serving (pantry [rice] 2))
  = (Returned tt,
     mkWorld (pantry [rice] 2) (refusal "Item with id 5 not found.") [])
  /\ app_post_id (mkRequest (payload "Beans" (3 # 1) "2026-02-02") (path_id "5"))
       (serving (pantry [rice] 2))
     = (Returned tt,
        mkWorld (pantry [rice] 2) (refusal "Item with id 5 not found.") []).
Proof.
  apply (missing_id_is_refused_with_400 [rice] 2 [] "5" 5 VUndef
           [("name", VStr "Beans"); ("quantity", VNum (3 # 1));
            ("expiration", VStr "2026-02-02")] "Beans" "2026-02-02" (3 # 1)).
  - reflexivity.
  - discriminate.
  - apply Z.leb_le. reflexivity.
  - intros r [<- | []]. discriminate.
  - reflexivity.
  - reflexivity.
  - discriminate.
  - reflexivity.
  - discriminate.
  - reflexivity.
  - reflexivity.
Defined.

(** ** C5: a failing statement *)

(** C5 (code defect).  The claim: when a database call signals an error
    the handler answers 500 with a generic message and logs the detail.
    Here the first statement of each route fails with error [e]: the
    callback of [db.query] reads [result.rows] although [result] is
    [undefined], the TypeError escapes, no response is written and nothing
    is logged.  [itemExists] moreover never looks at [err]. *)
Theorem failing_statement_throws :
  forall (t : list Row) (n : Z) (e : string) (fl : list (option string))
         (locale : string -> string),
    let down := serving (mkDb t n (Some e :: fl)) in
    let thrown :=
      (@Thrown unit "TypeError: Cannot read property 'rows' of undefined",
       serving (mkDb t n fl)) in
    app_get_root locale (mkRequest VUndef (VObj [])) down = thrown
    /\ app_post_root (mkRequest (payload "Rice" (2 # 1) "2025-01-01") (VObj []))
         down = thrown
    /\ app_post_id (mkRequest (payload "Rice" (2 # 1) "2025-01-01") (path_id "1"))
         down = thrown
    /\ app_delete_id (mkRequest VUndef (path_id "1")) down = thrown.
Proof. intros. repeat split; reflexivity. Qed.

(** ** Validators that all run *)

(** POST / with an empty object as body: the three validators run one
    after the other and each calls [userError], so [response.end()] is
    called three times.  The response is sent at the first call, and the
    client gets that one. *)
Theorem create_without_fields_writes_thrice :
  writes (response
    (run (app_post_root (mkRequest (VObj []) (VObj []))) (pantry [] 1)))
  = [mkWrite 400 (Some "name was undefined.") None;
     mkWrite 400 (Some "quantity was undefined.") None;
     mkWrite 400 (Some "expiration was undefined.") None]
  /\ delivered (response
       (run (app_post_root (mkRequest (VObj []) (VObj []))) (pantry [] 1)))
     = Some (mkWrite 400 (Some "name was undefined.") None).
Proof. split; reflexivity. Qed.

(** ** C7: create *)

(** C7.  For a payload whose name is a non-empty string, whose quantity is
    a number at least 1 and whose expiration is a string the pattern
    matches, on a database that answers, POST / writes one response: 200
    with the item made of the submitted name, quantity and expiration and
    the id the database assigned, an integer.  The row is added to the
    table under that id. *)
Theorem create_answers_with_assigned_id :
  forall (fs : list (string * Val)) (prm : Val) (nm e : string) (q : Q)
         (t : list Row) (n : Z) (fl : list (option string)),
    lookup "name" fs = VStr nm -> nm <> "" ->
    lookup "quantity" fs = VNum q -> (1 <= q)%Q ->
    lookup "expiration" fs = VStr e -> EXPIRATION_REGEX_test e = true ->
    next_fault (mkDb t n fl) = None ->
    app_post_root (mkRequest (VObj fs) prm) (serving (mkDb t n fl))
    = (Returned tt,
       mkWorld (mkDb (t ++ [mkRow n nm e q]) (n + 1) (tl fl))
         (mkResponse 200 None
            [mkWrite 200 None
               (Some (VObj [("name", VStr nm); ("quantity", VNum q);
                            ("expiration", VStr e); ("id", num n)]))])
         []).
Proof.
  intros fs prm nm e q t n fl Ln Nn Lq Hq Le He F. unfold app_post_root.
  unfold bind at 1. rewrite (getValidateName_accepts fs _ nm _ Ln Nn).
  cbv beta iota.
  unfold bind at 1. rewrite (getValidatedQuantity_accepts fs _ q _ Lq Hq).
  cbv beta iota.
  unfold bind at 1. rewrite (getValidatedExpiration_accepts fs _ e _ Le He).
  cbv beta iota.
  assert (Tn : truthy (VStr nm) = true)
    by (destruct nm; [congruence | reflexivity]).
  assert (Te : truthy (VStr e) = true)
    by (destruct e; [discriminate He | reflexivity]).
  rewrite (truthy_at_least_one q Hq), Tn, Te.
  cbv beta iota delta [negb orb].
  unfold insertItem. repeat (unfold bind at 1; rewrite get_field; cbv beta iota).
  unfold serving.
  erewrite db_query_answers; [| exact F | reflexivity].
  reflexivity.
Qed.

(** C7 at the Rice payload on an empty table whose next id is 1. *)
Lemma create_answers_with_assigned_id_witness :
  app_post_root (mkRequest (payload "Rice" (2 # 1) "2025-01-01") (VObj []))
    (serving (pantry [] 1))
  = (Returned tt,
     mkWorld (pantry [rice] 2)
       (mkResponse 200 None
          [mkWrite 200 None
             (Some (VObj [("name", VStr "Rice"); ("quantity", VNum (2 # 1));
                          ("expiration", VStr "2025-01-01"); ("id", num 1)]))])
       []).
Proof.
  apply (create_answers_with_assigned_id
           [("name", VStr "Rice"); ("quantity", VNum (2 # 1));
            ("expiration", VStr "2025-01-01")]
           (VObj []) "Rice" "2025-01-01" (2 # 1) [] 1 []).
  - reflexivity.
  - discriminate.
  - reflexivity.
  - discriminate.
  - reflexivity.
  - reflexivity.
  - reflexivity.
Defined.


(** ** C8: the quantity validator *)

(** C8, as stated, fails: the quantity 3/2 is accepted and returned as it
    is, and it is not an integer. *)
Lemma getValidatedQuantity_returns_fraction :
  getValidatedQuantity (mkRequest (VObj [("quantity", VNum (3 # 2))]) (VObj []))
    (serving (pantry [] 1))
  = (Returned (VNum (3 # 2)), serving (pantry [] 1))
  /\ is_integer (3 # 2) = false.
Proof. split; reflexivity. Qed.

(** The validator, as a function of the field it reads. *)
Lemma getValidatedQuantity_cases fs prm w :
  getValidatedQuantity (mkRequest (VObj fs) prm) w
  = let v := lookup "quantity" fs in
    if negb (truthy v)
    then (Returned VUndef, refused "quantity was undefined." w)
    else if negb (typeof v =? "number")%string || lt_one v
         then (Returned VUndef,
               refused "quantity was not a number or was less than 1." w)
         else (Returned v, w).
Proof.
  unfold getValidatedQuantity, bind at 1. simpl body. rewrite get_field.
  cbv beta iota zeta.
  destruct (negb (truthy (lookup "quantity" fs))); [reflexivity |].
  destruct (negb (typeof (lookup "quantity" fs) =? "number")%string
            || lt_one (lookup "quantity" fs)); reflexivity.
Qed.

(** C8 (amended).  For every payload object the quantity validator either
    returns the submitted quantity unchanged, a number at least 1 that
    need not be an integer, and leaves the response alone, or signals
    invalid: it returns [undefined] after writing a 400 response.  It
    signals invalid exactly when the quantity is absent, is not a number
    ([NaN] is not one), or is less than 1. *)
Theorem getValidatedQuantity_accepts_numbers_from_one :
  forall (fs : list (string * Val)) (prm : Val) (w : World),
    let v := lookup "quantity" fs in
    let r := getValidatedQuantity (mkRequest (VObj fs) prm) w in
    ((r = (Returned v, w) /\ exists q, v = VNum q /\ (1 <= q)%Q)
     \/ exists error, r = (Returned VUndef, refused error w))
    /\ (fst r = Returned VUndef
        <-> v = VUndef
            \/ (forall q, v <> VNum q)
            \/ exists q, v = VNum q /\ (q < 1)%Q).
Proof.
  intros fs prm w v r. subst r. rewrite getValidatedQuantity_cases.
  cbv zeta. fold v.
  destruct v as [| |b|q| |s|iso|m|xs|os] eqn:V.
  4: {
    change (typeof (VNum q) =? "number")%string with true.
    destruct (truthy (VNum q)) eqn:T; destruct (lt_one (VNum q)) eqn:L;
      destruct (Qlt_le_dec q 1) as [Lt|Ge];
      try (rewrite (lt_one_below q Lt) in L; discriminate L);
      try (rewrite (lt_one_at_least_one q Ge) in L; discriminate L);
      try (rewrite (truthy_at_least_one q Ge) in T; discriminate T);
      simpl.
    - split; [right; eexists; reflexivity |].
      split; [| reflexivity]. intros _. right. right. exists q. auto.
    - split; [left; split; [reflexivity | exists q; auto] |].
      split; [discriminate |].
      intros [A | [A | [q' [A B]]]].
      + discriminate A.
      + exfalso. exact (A q eq_refl).
      + injection A as <-. exfalso. exact (Qlt_not_le _ _ B Ge).
    - split; [right; eexists; reflexivity |].
      split; [| reflexivity]. intros _. right. right. exists q. auto.
  }
  all: try (destruct b); try (destruct s); simpl;
    (split;
     [ right; eexists; reflexivity
     | split; [ intros _; first [ left; reflexivity
                                | right; left; intros q A; discriminate A ]
              | reflexivity ] ]).
Qed.

(** ** C9: listing *)

Lemma dateObjectToString_row locale r w :
  dateObjectToString locale (row_object r) w = (Returned (listed locale r), w).
Proof. reflexivity. Qed.

Lemma mapM_rows locale t w :
  mapM (dateObjectToString locale) (map row_object t) w
  = (Returned (map (listed locale) t), w).
Proof.
  induction t as [|r t IH]; [reflexivity |].
  simpl map. simpl mapM. unfold bind at 1.
  rewrite dateObjectToString_row. unfold bind at 1. rewrite IH.
  reflexivity.
Qed.

(** C9, as stated, fails: under the en-US rendering the row that expires
    on 2025-01-01 is listed with the expiration "1/1/2025", which the
    input pattern does not match. *)
Lemma listed_expiration_is_locale_text :
  writes (response
    (run (app_get_root en_US (mkRequest VUndef (VObj []))) (pantry [rice] 2)))
  = [mkWrite 200 None
       (Some (VArr [VObj [("name", VStr "Rice"); ("quantity", VNum (2 # 1));
                          ("expiration", VStr "1/1/2025"); ("id", num 1)]]))]
  /\ EXPIRATION_REGEX_test "1/1/2025" = false.
Proof. split; reflexivity. Qed.

(** C9 (amended).  On a database that answers, GET / writes one response:
    200 with the array of all rows of the table, in table order, each with
    its name, quantity and id and with its expiration rendered by the
    runtime's [toLocaleDateString] (whatever format the locale of the
    process gives; not YYYY-MM-DD in general).  The table is unchanged.
    On an empty table the body is the empty array. *)
Theorem list_renders_dates_in_locale :
  forall (locale : string -> string) (req : Request)
         (t : list Row) (n : Z) (fl : list (option string)),
    next_fault (mkDb t n fl) = None ->
    app_get_root locale req (serving (mkDb t n fl))
    = (Returned tt,
       mkWorld (mkDb t n (tl fl))
         (mkResponse 200 None
            [mkWrite 200 None (Some (VArr (map (listed locale) t)))])
         [])
    /\ writes (response (run (app_get_root locale req) (mkDb [] n fl)))
       = [mkWrite 200 None (Some (VArr []))].
Proof.
  intros locale req t n fl F.
  assert (E : forall t',
             app_get_root locale req (serving (mkDb t' n fl))
             = (Returned tt,
                mkWorld (mkDb t' n (tl fl))
                  (mkResponse 200 None
                     [mkWrite 200 None (Some (VArr (map (listed locale) t')))])
                  [])).
  { intro t'. unfold app_get_root, getItems, serving.
    erewrite db_query_answers; [| exact F | reflexivity].
    cbn [table next_id faults].
    unfold result_of, bind at 1. rewrite get_field.
    change (lookup "rows" [("rows", VArr (map row_object t'))])
      with (VArr (map row_object t')).
    cbv beta iota. unfold bind at 1. unfold array_map. unfold bind at 1.
    rewrite mapM_rows. reflexivity. }
  split; [exact (E t) |].
  unfold run. rewrite (E []). reflexivity.
Qed.

(** The amended C9 under the en-US rendering, on the table that holds
    Rice. *)
Lemma list_renders_dates_in_locale_witness :
  app_get_root en_US (mkRequest VUndef (VObj [])) (serving (pantry [rice] 2))
  = (Returned tt,
     mkWorld (pantry [rice] 2)
       (mkResponse 200 None
          [mkWrite 200 None (Some (VArr (map (listed en_US) [rice])))])
       [])
  /\ writes (response
        (run (app_get_root en_US (mkRequest VUndef (VObj []))) (pantry [] 2)))
     = [mkWrite 200 None (Some (VArr []))].
Proof.
  apply (list_renders_dates_in_locale en_US (mkRequest VUndef (VObj []))
           [rice] 2 []).
  reflexivity.
Defined.

(** ** C10: the id 0 *)

(** C10, as stated, fails for POST /:id: with the id "0" and a payload
    that has no field, the three payload validators each write a 400
    response. *)
Lemma update_with_id_zero_can_write :
  statuses (run (app_post_id (mkRequest (VObj []) (path_id "0")))
                (pantry [rice] 2))
  = [400%Z; 400%Z; 400%Z].
Proof. reflexivity. Qed.

(** C10 (amended).  When the id path parameter parses to the integer 0,
    the id validator returns 0 and writes nothing; DELETE /:id then
    returns at its guard, and so does POST /:id whose payload passes
    validation: the world is unchanged, so no statement reaches the
    database and no response is written.  For any payload, POST /:id does
    what the three payload validators do and no more. *)
Theorem id_zero_leaves_request_unanswered :
  forall (s : string) (b : Val) (w : World)
         (fs : list (string * Val)) (nm e : string) (q : Q),
    parse_int s = Some 0%Z ->
    lookup "name" fs = VStr nm -> nm <> "" ->
    lookup "quantity" fs = VNum q -> (1 <= q)%Q ->
    lookup "expiration" fs = VStr e -> EXPIRATION_REGEX_test e = true ->
    getValidatedId (mkRequest b (path_id s)) w = (Returned (num 0), w)
    /\ app_delete_id (mkRequest b (path_id s)) w = (Returned tt, w)
    /\ app_post_id (mkRequest (VObj fs) (path_id s)) w = (Returned tt, w)
    /\ app_post_id (mkRequest b (path_id s)) w
       = (getValidateName (mkRequest b (path_id s)) ;;
          getValidatedQuantity (mkRequest b (path_id s)) ;;
          getValidatedExpiration (mkRequest b (path_id s)) ;;
          ret tt) w.
Proof.
  intros s b w fs nm e q P Ln Nn Lq Hq Le He.
  assert (Z0 : forall b' w',
             getValidatedId (mkRequest b' (path_id s)) w'
             = (Returned (num 0), w'))
    by (intros; apply getValidatedId_accepts;
        [exact P | apply Z.leb_le; reflexivity]).
  assert (G : forall b' w',
             app_post_id (mkRequest b' (path_id s)) w'
             = (getValidateName (mkRequest b' (path_id s)) ;;
                getValidatedQuantity (mkRequest b' (path_id s)) ;;
                getValidatedExpiration (mkRequest b' (path_id s)) ;;
                ret tt) w').
  { intros b' w'. unfold app_post_id, bind.
    destruct (getValidateName _ w') as [[name|x] w1]; [| reflexivity].
    destruct (getValidatedQuantity _ w1) as [[quantity|x] w2]; [| reflexivity].
    destruct (getValidatedExpiration _ w2) as [[expiration|x] w3];
      [| reflexivity].
    rewrite Z0. change (truthy (num 0)) with false.
    cbv beta iota delta [negb]. rewrite !orb_true_r. reflexivity. }
  split; [apply Z0 |]. split; [| split; [| apply G]].
  - unfold app_delete_id, bind at 1. rewrite Z0. reflexivity.
  - rewrite G. unfold bind.
    rewrite (getValidateName_accepts fs _ nm _ Ln Nn).
    rewrite (getValidatedQuantity_accepts fs _ q _ Lq Hq).
    rewrite (getValidatedExpiration_accepts fs _ e _ Le He).
    reflexivity.
Qed.

(** The amended C10 at the path parameter "0". *)
Lemma id_zero_leaves_request_unanswered_witness :
  let w := serving (pantry [rice] 2) in
  let beans := payload "Beans" (3 # 1) "2026-02-02" in
  getValidatedId (mkRequest VUndef (path_id "0")) w = (Returned (num 0), w)
  /\ app_delete_id (mkRequest VUndef (path_id "0")) w = (Returned tt, w)
  /\ app_post_id (mkRequest beans (path_id "0")) w = (Returned tt, w)
  /\ app_post_id (mkRequest VUndef (path_id "0")) w
     = (getValidateName (mkRequest VUndef (path_id "0")) ;;
        getValidatedQuantity (mkRequest VUndef (path_id "0")) ;;
        getValidatedExpiration (mkRequest VUndef (path_id "0")) ;;
        ret tt) w.
Proof.
  apply (id_zero_leaves_request_unanswered "0" VUndef
           (serving (pantry [rice] 2))
           [("name", VStr "Beans"); ("quantity", VNum (3 # 1));
            ("expiration", VStr "2026-02-02")] "Beans" "2026-02-02" (3 # 1)).
  - reflexivity.
  - reflexivity.
  - discriminate.
  - reflexivity.
  - discriminate.
  - reflexivity.
  - reflexivity.
Defined.

(** * Further properties of the code *)

(** ** Configuration *)

Lemma env_get_shape env name :
  env_get env name = VUndef \/ exists v, env_get env name = VStr v.
Proof.
  induction env as [|[k v] env IH]; simpl; [left; reflexivity |].
  destruct (name =? k)%string; [right; exists v; reflexivity | exact IH].
Qed.

Lemma getFromEnv_cases env name :
  (exists v, v <> "" /\ env_get env name = VStr v
             /\ getFromEnv env name = Returned (VStr v))
  \/ ((env_get env name = VUndef \/ env_get env name = VStr "")
      /\ getFromEnv env name = Thrown (name ++ " was not set!")).
Proof.
  unfold getFromEnv.
  destruct (env_get_shape env name) as [E | [v E]]; rewrite E.
  - right. split; [left |]; reflexivity.
  - destruct v as [|c v].
    + right. split; [right |]; reflexivity.
    + left. exists (String c v). repeat split. discriminate.
Qed.

(** X1.  The module loads only when PORT and DATABASE_URL are both set to
    a text that is not empty, and then it reads exactly those texts.  A
    variable set to the empty text counts as not set.  The error names
    the variable, and names PORT exactly when PORT is unset or empty,
    whatever DATABASE_URL is. *)
Theorem configuration_needs_both_variables :
  forall env : Env,
    (forall p u,
        configuration env = Returned (VStr p, VStr u)
        <-> env_get env "PORT" = VStr p /\ p <> ""
            /\ env_get env "DATABASE_URL" = VStr u /\ u <> "")
    /\ (configuration env = Thrown "PORT was not set!"
        <-> env_get env "PORT" = VUndef \/ env_get env "PORT" = VStr "")
    /\ (forall e, configuration env = Thrown e ->
                  e = "PORT was not set!" \/ e = "DATABASE_URL was not set!").
Proof.
  intro env. unfold configuration.
  destruct (getFromEnv_cases env "PORT") as [[p [Np [Ep Gp]]] | [Ep Gp]];
    rewrite Gp;
    [destruct (getFromEnv_cases env "DATABASE_URL")
       as [[u [Nu [Eu Gu]]] | [Eu Gu]]; rewrite Gu |].
  - split; [| split].
    + intros p' u'. split.
      * intro H. injection H as <- <-. auto.
      * intros [A [_ [B _]]]. congruence.
    + split; [discriminate |]. intros [A | A]; congruence.
    + discriminate.
  - split; [| split].
    + intros p' u'. split; [discriminate |].
      intros [_ [_ [B C]]]. destruct Eu as [A | A]; congruence.
    + split; [discriminate |]. intros [A | A]; congruence.
    + intros e H. injection H as <-. right. reflexivity.
  - split; [| split].
    + intros p' u'. split; [discriminate |].
      intros [B [C _]]. destruct Ep as [A | A]; congruence.
    + split; [intros _; exact Ep | reflexivity].
    + intros e H. injection H as <-. left. reflexivity.
Qed.

(** ** The validators, case by case *)

Lemma getValidateName_cases fs prm w :
  getValidateName (mkRequest (VObj fs) prm) w
  = let v := lookup "name" fs in
    if negb (truthy v)
    then (Returned VUndef, refused "name was undefined." w)
    else if negb (typeof v =? "string")%string || (str_length v =? 0)%nat
         then (Returned VUndef,
               refused "name was not a string or was empty." w)
         else (Returned v, w).
Proof.
  unfold getValidateName, bind at 1. simpl body. rewrite get_field.
  cbv beta iota zeta.
  destruct (negb (truthy (lookup "name" fs))); [reflexivity |].
  destruct (negb (typeof (lookup "name" fs) =? "string")%string
            || (str_length (lookup "name" fs) =? 0)%nat); reflexivity.
Qed.

Lemma getValidatedExpiration_cases fs prm w :
  getValidatedExpiration (mkRequest (VObj fs) prm) w
  = let v := lookup "expiration" fs in
    if negb (truthy v)
    then (Returned VUndef, refused "expiration was undefined." w)
    else if negb (typeof v =? "string")%string
            || negb (EXPIRATION_REGEX_test (ToString v))
         then (Returned VUndef,
               refused ("expiration date was not a string " ++
                        "or it was not of the format YYYY-MM-DD.") w)
         else (Returned v, w).
Proof.
  unfold getValidatedExpiration, bind at 1. simpl body. rewrite get_field.
  cbv beta iota zeta.
  destruct (negb (truthy (lookup "expiration" fs))); [reflexivity |].
  destruct (negb (typeof (lookup "expiration" fs) =? "string")%string
            || negb (EXPIRATION_REGEX_test (ToString (lookup "expiration" fs))));
    reflexivity.
Qed.

(** X2.  The name validator returns the name exactly when it is a string
    that is not empty.  Every falsy name (missing, [null], [false], [0],
    [NaN] and also the empty string) is refused as "name was undefined.";
    a truthy name that is not a string is refused with the other message.
    A refusal writes one 400 response. *)
Theorem getValidateName_accepts_nonempty_strings :
  forall (fs : list (string * Val)) (prm : Val) (w : World),
    let v := lookup "name" fs in
    let r := getValidateName (mkRequest (VObj fs) prm) w in
    (r = (Returned v, w) /\ exists s, v = VStr s /\ s <> "")
    \/ (r = (Returned VUndef, refused "name was undefined." w)
        /\ truthy v = false)
    \/ (r = (Returned VUndef,
             refused "name was not a string or was empty." w)
        /\ truthy v = true /\ forall s, v <> VStr s).
Proof.
  intros fs prm w v r. subst r. rewrite getValidateName_cases.
  cbv zeta. fold v.
  destruct v as [| |[|]|q| |[|c s]|iso|m|xs|os]; simpl;
    try (right; left; split; reflexivity);
    try (right; right; split; [reflexivity | split; [reflexivity |]];
         intros s' A; discriminate A).
  - destruct (Qeq_bool q 0); simpl.
    + right. left. split; reflexivity.
    + right. right. split; [reflexivity | split; [reflexivity |]].
      intros s' A. discriminate A.
  - left. split; [reflexivity |]. exists (String c s). split; [reflexivity |].
    discriminate.
Qed.

(** ** The expiration pattern *)

Lemma match_here_prefix s :
  match_here s = true ->
  exists d post, s = d ++ post /\ date_shaped d.
Proof.
  intro H.
  destruct s as [|y1 [|y2 [|y3 [|y4 [|h1 [|m1 [|m2 [|h2 [|d1 [|d2 post]]]]]]]]]];
    try discriminate H.
  exists (String y1 (String y2 (String y3 (String y4 (String h1
           (String m1 (String m2 (String h2 (String d1 (String d2 "")))))))))).
  exists post. split; [reflexivity |]. split; [exact H | reflexivity].
Qed.

Lemma match_here_app d post :
  date_shaped d -> match_here (d ++ post) = true.
Proof.
  intros [H L].
  destruct d as [|y1 [|y2 [|y3 [|y4 [|h1 [|m1 [|m2 [|h2 [|d1 [|d2 r]]]]]]]]]];
    try discriminate H.
  exact H.
Qed.

Lemma EXPIRATION_REGEX_test_app_l pre s :
  EXPIRATION_REGEX_test s = true -> EXPIRATION_REGEX_test (pre ++ s) = true.
Proof.
  intro H. induction pre as [|c pre IH]; [exact H |].
  change (EXPIRATION_REGEX_test (String c pre ++ s))
    with (match_here (String c (pre ++ s)) || EXPIRATION_REGEX_test (pre ++ s)).
  rewrite IH. apply orb_true_r.
Qed.

Lemma EXPIRATION_REGEX_test_here s :
  match_here s = true -> EXPIRATION_REGEX_test s = true.
Proof.
  intro H. destruct s as [|c s]; [discriminate H |].
  change (EXPIRATION_REGEX_test (String c s))
    with (match_here (String c s) || EXPIRATION_REGEX_test s).
  rewrite H. reflexivity.
Qed.

Lemma EXPIRATION_REGEX_test_contains :
  forall s : string,
    EXPIRATION_REGEX_test s = true
    <-> exists pre d post, s = pre ++ d ++ post /\ date_shaped d.
Proof.
  intro s. split.
  - induction s as [|c s IH]; intro H.
    + discriminate H.
    + change (EXPIRATION_REGEX_test (String c s))
        with (match_here (String c s) || EXPIRATION_REGEX_test s) in H.
      apply orb_true_iff in H.
      destruct H as [H | H].
      * destruct (match_here_prefix _ H) as [d [post [E D]]].
        exists "", d, post. split; [exact E | exact D].
      * destruct (IH H) as [pre [d [post [E D]]]].
        exists (String c pre), d, post. split; [| exact D].
        simpl. rewrite E. reflexivity.
  - intros [pre [d [post [-> D]]]].
    apply EXPIRATION_REGEX_test_app_l, EXPIRATION_REGEX_test_here.
    apply match_here_app. exact D.
Qed.

(** X3.  The expiration pattern is searched for, not matched against the
    whole text: a text passes exactly when it contains, anywhere, four
    digits, a dash, two digits, a dash and two digits.  Text before and
    after is ignored and the digits need not form a calendar date. *)
Theorem EXPIRATION_REGEX_test_finds_a_date_shape :
  forall s : string,
    EXPIRATION_REGEX_test s = true
    <-> exists pre d post, s = pre ++ d ++ post /\ date_shaped d.
Proof. exact EXPIRATION_REGEX_test_contains. Qed.

(** X4.  The expiration validator returns the expiration exactly when it
    is a string that contains a date shape; a falsy expiration (missing,
    [null], [false], [0], the empty string) is refused as "expiration was
    undefined.", anything else with the format message.  A refusal writes
    one 400 response. *)
Theorem getValidatedExpiration_accepts_texts_with_a_date_shape :
  forall (fs : list (string * Val)) (prm : Val) (w : World),
    let v := lookup "expiration" fs in
    let r := getValidatedExpiration (mkRequest (VObj fs) prm) w in
    (r = (Returned v, w)
     /\ exists pre d post, v = VStr (pre ++ d ++ post) /\ date_shaped d)
    \/ (r = (Returned VUndef, refused "expiration was undefined." w)
        /\ truthy v = false)
    \/ (r = (Returned VUndef,
             refused "expiration date was not a string or it was not of the format YYYY-MM-DD." w)
        /\ truthy v = true
        /\ forall pre d post, date_shaped d -> v <> VStr (pre ++ d ++ post)).
Proof.
  intros fs prm w v r. subst r. rewrite getValidatedExpiration_cases.
  cbv zeta. fold v.
  destruct v as [| |[|]|q| |s|iso|m|xs|os];
    try (right; left; split; reflexivity);
    try (right; right; split; [reflexivity | split; [reflexivity |]];
         intros pre d post _ A; discriminate A).
  - destruct (truthy (VNum q)) eqn:T; simpl negb; cbv iota.
    + right. right. split; [reflexivity | split; [reflexivity |]].
      intros pre d post _ A. discriminate A.
    + right. left. split; reflexivity.
  - destruct s as [|c s]; [right; left; split; reflexivity |].
    change (truthy (VStr (String c s))) with true.
    change (typeof (VStr (String c s)) =? "string")%string with true.
    change (ToString (VStr (String c s))) with (String c s).
    destruct (EXPIRATION_REGEX_test (String c s)) eqn:T;
      cbv beta iota delta [negb orb].
    + left. split; [reflexivity |].
      apply EXPIRATION_REGEX_test_contains in T.
      destruct T as [pre [d [post [E D]]]].
      exists pre, d, post. split; [rewrite E; reflexivity | exact D].
    + right. right. split; [reflexivity | split; [reflexivity |]].
      intros pre d post D A. injection A as A.
      assert (T' : EXPIRATION_REGEX_test (String c s) = true).
      { apply EXPIRATION_REGEX_test_contains.
        exists pre, d, post. split; [exact A | exact D]. }
      congruence.
Qed.

(** ** [parseInt] on a numeral followed by other text *)

Lemma digits_stop t acc :
  no_leading_digit t -> digits 10 t acc = acc.
Proof.
  destruct t as [|c t]; [reflexivity |].
  unfold no_leading_digit, is_digit. simpl digits. unfold digit_val.
  intro H. rewrite H.
  destruct ((97 <=? Z.of_nat (nat_of_ascii c))%Z
            && (Z.of_nat (nat_of_ascii c) <=? 122)%Z) eqn:A.
  - apply andb_true_iff in A. destruct A as [A _]. apply Z.leb_le in A.
    destruct (Z.ltb_spec (Z.of_nat (nat_of_ascii c) - 87) 10);
      [lia | reflexivity].
  - destruct ((65 <=? Z.of_nat (nat_of_ascii c))%Z
              && (Z.of_nat (nat_of_ascii c) <=? 90)%Z) eqn:B;
      [| reflexivity].
    apply andb_true_iff in B. destruct B as [B _]. apply Z.leb_le in B.
    destruct (Z.ltb_spec (Z.of_nat (nat_of_ascii c) - 55) 10);
      [lia | reflexivity].
Qed.

Lemma digits_step c k s acc :
  digit_val c = Some k -> (k <? 10)%Z = true ->
  digits 10 (String c s) acc
  = digits 10 s
      (Some (10 * match acc with Some a => a | None => 0 end + k)%Z).
Proof.
  intros D L. cbn [digits]. rewrite D, L. reflexivity.
Qed.

Lemma digits_numeral_acc d : forall t a,
  digits 10 (NilEmpty.string_of_uint d ++ t) (Some (Zpos a))
  = digits 10 t (Some (Zpos (Pos.of_uint_acc d a))).
Proof.
  induction d; intros t a; cbn [NilEmpty.string_of_uint append];
    [reflexivity | ..];
    (erewrite digits_step; [| reflexivity | reflexivity]);
    cbn [Pos.of_uint_acc]; rewrite <- IHd; do 2 f_equal;
    repeat match goal with
           | |- context [Z.of_nat (nat_of_ascii ?c)] =>
               let v := eval vm_compute in (Z.of_nat (nat_of_ascii c)) in
               change (Z.of_nat (nat_of_ascii c)) with v
           end;
    lia.
Qed.

Lemma digits_numeral d : forall t,
  digits 10 (NilEmpty.string_of_uint d ++ t) (Some 0%Z)
  = digits 10 t (Some (Z.of_N (Pos.of_uint d))).
Proof.
  induction d; intro t; cbn [NilEmpty.string_of_uint append];
    [reflexivity | ..];
    (erewrite digits_step; [| reflexivity | reflexivity]);
    cbn [Pos.of_uint];
    first [ exact (IHd t) | apply digits_numeral_acc ].
Qed.

Lemma digits_numeral_first d t :
  d <> Decimal.Nil ->
  digits 10 (NilEmpty.string_of_uint d ++ t) None
  = digits 10 (NilEmpty.string_of_uint d ++ t) (Some 0%Z).
Proof.
  destruct d; intro N; [congruence | ..]; reflexivity.
Qed.

Lemma digits_of_positive p t :
  no_leading_digit t ->
  digits 10 (NilEmpty.string_of_uint (Pos.to_uint p) ++ t) None
  = Some (Zpos p).
Proof.
  intro T.
  rewrite digits_numeral_first by apply DecimalPos.Unsigned.to_uint_nonnil.
  rewrite digits_numeral, DecimalPos.Unsigned.of_to.
  apply digits_stop. exact T.
Qed.

Lemma string_of_Z_pos p :
  string_of_Z (Zpos p) = NilEmpty.string_of_uint (Pos.to_uint p).
Proof.
  unfold string_of_Z. simpl Z.to_int. unfold NilZero.string_of_int.
  pose proof (DecimalPos.Unsigned.to_uint_nonnil p) as N.
  unfold NilZero.string_of_uint.
  destruct (Pos.to_uint p); [congruence | ..]; reflexivity.
Qed.

Lemma string_of_Z_neg p :
  string_of_Z (Zneg p)
  = String "-" (NilEmpty.string_of_uint (Pos.to_uint p)).
Proof.
  unfold string_of_Z. simpl Z.to_int. unfold NilZero.string_of_int.
  pose proof (DecimalPos.Unsigned.to_uint_nonnil p) as N.
  unfold NilZero.string_of_uint.
  destruct (Pos.to_uint p); [congruence | ..]; reflexivity.
Qed.

(** A numeral of a positive number is read in radix 10: it is not the
    text "0", so no [0x] prefix is seen. *)
Lemma parse_int_numeral (sign : string) (k : Z) p t :
  (sign = "" /\ k = 1%Z) \/ (sign = "-" /\ k = (-1)%Z) ->
  parse_int (sign ++ NilEmpty.string_of_uint (Pos.to_uint p) ++ t)
  = option_map (Z.mul k)
      (digits 10 (NilEmpty.string_of_uint (Pos.to_uint p) ++ t) None).
Proof.
  intro S.
  pose proof (DecimalPos.Unsigned.to_uint_nonnil p) as N.
  pose proof (DecimalPos.Unsigned.to_uint_nonzero p) as NZ.
  destruct S as [[-> ->] | [-> ->]];
    destruct (Pos.to_uint p) as [|d|d|d|d|d|d|d|d|d|d];
    try congruence; try reflexivity;
    destruct d; try congruence; reflexivity.
Qed.

Lemma parse_int_string_of_Z n t :
  no_leading_digit t -> (n = 0%Z -> no_leading_x t) ->
  parse_int (string_of_Z n ++ t) = Some n.
Proof.
  intros T X. destruct n as [|p|p].
  - specialize (X eq_refl). destruct t as [|c r]; [reflexivity |].
    simpl in T, X. destruct X as [X1 X2].
    destruct c as [[] [] [] [] [] [] [] []];
      first [ reflexivity | discriminate T
            | exfalso; apply X1; reflexivity
            | exfalso; apply X2; reflexivity ].
  - rewrite string_of_Z_pos.
    pose proof (parse_int_numeral "" 1 p t
                  (or_introl (conj eq_refl eq_refl))) as E.
    cbn [append] in E. rewrite E, (digits_of_positive p t T). reflexivity.
  - rewrite string_of_Z_neg.
    pose proof (parse_int_numeral "-" (-1) p t
                  (or_intror (conj eq_refl eq_refl))) as E.
    cbn [append] in E |- *.
    rewrite E, (digits_of_positive p t T). reflexivity.
Qed.

(** X5.  The id validator reads a leading integer and ignores what
    follows: for every integer [n] of magnitude at most 2^53, which a
    double holds exactly, and every text [t] that does not start with a
    digit, the path parameter made of the decimal numeral of [n] followed
    by [t] is accepted as the id [n], and no response is written.  The
    one exception is the numeral 0 followed by [x] or [X], which
    [parseInt] reads as a hexadecimal prefix. *)
Theorem getValidatedId_ignores_trailing_text :
  forall (n : Z) (t : string) (b : Val) (w : World),
    (Z.abs n <= 2 ^ 53)%Z ->
    no_leading_digit t -> (n = 0%Z -> no_leading_x t) ->
    getValidatedId (mkRequest b (path_id (string_of_Z n ++ t))) w
    = (Returned (num n), w).
Proof.
  intros n t b w B T X. apply getValidatedId_accepts; [| exact B].
  apply parse_int_string_of_Z; assumption.
Qed.

(** X5 at the path parameter "5abc". *)
Lemma getValidatedId_ignores_trailing_text_witness :
  getValidatedId (mkRequest VUndef (path_id "5abc")) (serving (pantry [] 1))
  = (Returned (num 5), serving (pantry [] 1)).
Proof.
  apply (getValidatedId_ignores_trailing_text 5 "abc" VUndef
           (serving (pantry [] 1))).
  - apply Z.leb_le. reflexivity.
  - reflexivity.
  - discriminate.
Defined.

(** ** What a validator can do *)

Lemma userError_refused error w :
  userError error w = (Returned tt, refused error w).
Proof. reflexivity. Qed.

Lemma get_cases v k w :
  (exists e, get v k w = (Thrown e, w))
  \/ (exists x, get v k w = (Returned x, w)).
Proof.
  destruct v; simpl;
    first [ left; eexists; reflexivity | right; eexists; reflexivity ].
Qed.

Lemma get_of_truthy v k w :
  truthy v = true -> exists x, get v k w = (Returned x, w).
Proof.
  destruct v; simpl; intro T; try discriminate T; eexists; reflexivity.
Qed.

Lemma refusal_validation error w :
  validation w ((userError error ;; ret VUndef) w).
Proof. apply (refuses w error). Qed.

Lemma getValidateName_validation request w :
  validation w (getValidateName request w).
Proof.
  unfold getValidateName, bind at 1.
  destruct (get_cases (body request) "name" w) as [[e E] | [x E]]; rewrite E;
    [apply throws |].
  cbv beta iota.
  destruct (truthy x) eqn:T;
    [change (negb true) with false | change (negb false) with true];
    cbv iota; [| apply refusal_validation].
  destruct (negb (typeof x =? "string")%string || (str_length x =? 0)%nat);
    [apply refusal_validation | apply accepts; exact T].
Qed.

Lemma getValidatedQuantity_validation request w :
  validation w (getValidatedQuantity request w).
Proof.
  unfold getValidatedQuantity, bind at 1.
  destruct (get_cases (body request) "quantity" w) as [[e E] | [x E]];
    rewrite E; [apply throws |].
  cbv beta iota.
  destruct (truthy x) eqn:T;
    [change (negb true) with false | change (negb false) with true];
    cbv iota; [| apply refusal_validation].
  destruct (negb (typeof x =? "number")%string || lt_one x);
    [apply refusal_validation | apply accepts; exact T].
Qed.

Lemma getValidatedExpiration_validation request w :
  validation w (getValidatedExpiration request w).
Proof.
  unfold getValidatedExpiration, bind at 1.
  destruct (get_cases (body request) "expiration" w) as [[e E] | [x E]];
    rewrite E; [apply throws |].
  cbv beta iota.
  destruct (truthy x) eqn:T;
    [change (negb true) with false | change (negb false) with true];
    cbv iota; [| apply refusal_validation].
  destruct (negb (typeof x =? "string")%string
            || negb (EXPIRATION_REGEX_test (ToString x)));
    [apply refusal_validation | apply accepts; exact T].
Qed.

(** The id validator either refuses, or throws, or returns a number; the
    number may be 0, which is falsy. *)
Lemma getValidatedId_cases request w :
  (exists n, getValidatedId request w = (Returned (num n), w))
  \/ (exists error,
         getValidatedId request w = (Returned VUndef, refused error w))
  \/ (exists e, getValidatedId request w = (Thrown e, w)).
Proof.
  destruct (get_cases (params request) "id" w) as [[e E] | [x E]].
  { right. right. exists e.
    unfold getValidatedId, bind at 1. rewrite E. reflexivity. }
  destruct (truthy x) eqn:T.
  2: { right. left. eexists.
       unfold getValidatedId, bind at 1. rewrite E. cbv beta iota.
       rewrite T. reflexivity. }
  destruct (parse_int (ToString x)) as [n|] eqn:P.
  - left. exists (to_double n).
    unfold getValidatedId, bind at 1. rewrite E. cbv beta iota.
    rewrite T. unfold parseInt. rewrite P. reflexivity.
  - right. left. eexists.
    unfold getValidatedId, bind at 1. rewrite E. cbv beta iota.
    rewrite T. unfold parseInt. rewrite P. reflexivity.
Qed.

(** ** What the data-access functions can do *)

Lemma itemExists_outcome item callback w :
  itemExists item callback w = callback (VBool false) (answered w)
  \/ (exists e, itemExists item callback w = (Thrown e, w))
  \/ (exists e, itemExists item callback w = (Thrown e, answered w)).
Proof.
  destruct (get_cases item "id" w) as [[e E] | [x E]].
  { right. left. exists e. unfold itemExists, bind at 1. rewrite E.
    reflexivity. }
  destruct w as [[t n fl] r c].
  destruct fl as [|[e|] fl].
  2: { right. right. eexists. unfold itemExists, bind at 1. rewrite E.
       reflexivity. }
  all: destruct x;
    first [ left; unfold itemExists, bind at 1; rewrite E; reflexivity
          | right; right; eexists; unfold itemExists, bind at 1; rewrite E;
            reflexivity ].
Qed.

Lemma updateItem_outcome item callback w :
  updateItem item callback w = callback VUndef absent (answered w)
  \/ (exists e, updateItem item callback w = (Thrown e, w))
  \/ (exists e, updateItem item callback w = (Thrown e, answered w)).
Proof.
  unfold updateItem.
  destruct (itemExists_outcome item
    (fun exists_ =>
       if negb (truthy exists_) then callback VUndef absent
       else
         name <- get item "name" ;;
         expiration <- get item "expiration" ;;
         quantity <- get item "quantity" ;;
         id <- get item "id" ;;
         db_query UPDATE_BY_ID [name; expiration; quantity; id]
           (fun err result => callback err item)) w)
    as [E | [[e E] | [e E]]]; rewrite E.
  - left. reflexivity.
  - right. left. exists e. reflexivity.
  - right. right. exists e. reflexivity.
Qed.

Lemma deleteItem_outcome item callback w :
  deleteItem item callback w = callback VUndef absent (answered w)
  \/ (exists e, deleteItem item callback w = (Thrown e, w))
  \/ (exists e, deleteItem item callback w = (Thrown e, answered w)).
Proof.
  unfold deleteItem.
  destruct (itemExists_outcome item
    (fun exists_ =>
       if negb (truthy exists_) then callback VUndef absent
       else
         id <- get item "id" ;;
         db_query DELETE_BY_ID [id] (fun err result => callback err item)) w)
    as [E | [[e E] | [e E]]]; rewrite E.
  - left. reflexivity.
  - right. left. exists e. reflexivity.
  - right. right. exists e. reflexivity.
Qed.

(** X6.  The existence check never reports that a row is present: for
    every item, every callback and every state of the database, either
    the callback is called once, with [false], after the count was
    answered, or a TypeError is thrown and the callback is not called. *)
Theorem itemExists_never_reports_presence :
  forall (item : Val) (callback : Val -> M unit) (w : World),
    itemExists item callback w = callback (VBool false) (answered w)
    \/ (exists e, itemExists item callback w = (Thrown e, w))
    \/ (exists e, itemExists item callback w = (Thrown e, answered w)).
Proof. exact itemExists_outcome. Qed.

(** X7.  [updateItem] and [deleteItem] never send their UPDATE or DELETE
    statement: for every item and callback, the world they hand to the
    callback is the one in which only the count statement was answered,
    the callback gets no error and [{present: false, item: undefined}],
    and otherwise a TypeError is thrown with the table as it was. *)
Theorem updateItem_and_deleteItem_always_report_absent :
  forall (item : Val) (callback : Val -> Val -> M unit) (w : World),
    (updateItem item callback w = callback VUndef absent (answered w)
     \/ exists e w', updateItem item callback w = (Thrown e, w')
                     /\ table (db w') = table (db w))
    /\ (deleteItem item callback w = callback VUndef absent (answered w)
        \/ exists e w', deleteItem item callback w = (Thrown e, w')
                        /\ table (db w') = table (db w)).
Proof.
  intros item callback w. split.
  - destruct (updateItem_outcome item callback w) as [E | [[e E] | [e E]]].
    + left. exact E.
    + right. exists e, w. split; [exact E | reflexivity].
    + right. exists e, (answered w). split; [exact E | reflexivity].
  - destruct (deleteItem_outcome item callback w) as [E | [[e E] | [e E]]].
    + left. exact E.
    + right. exists e, w. split; [exact E | reflexivity].
    + right. exists e, (answered w). split; [exact E | reflexivity].
Qed.

(** ** Properties every step of a route keeps *)

Section Keeping.

(** A property of the world that a refusal and an answered statement
    that changes nothing both keep. *)
Variable P : World -> Prop.
Hypothesis P_refused : forall error w, P w -> P (refused error w).
Hypothesis P_answered : forall w, P w -> P (answered w).

Lemma bind_keeps {A B : Type} (c : M A) (k : A -> M B) w :
  P (snd (c w)) -> (forall a w', P w' -> P (snd (k a w'))) ->
  P (snd (bind c k w)).
Proof.
  intros C K. unfold bind. destruct (c w) as [[a|e] w']; simpl in *; auto.
Qed.

Lemma validation_keeps w r : validation w r -> P w -> P (snd r).
Proof.
  intros V H. destruct V; simpl; auto.
Qed.

Lemma getValidatedId_keeps request w :
  P w -> P (snd (getValidatedId request w)).
Proof.
  intro H.
  destruct (getValidatedId_cases request w) as [[n E] | [[m E] | [e E]]];
    rewrite E; simpl; auto.
Qed.

Lemma app_delete_id_keeps request w :
  P w -> P (snd (app_delete_id request w)).
Proof.
  intro H. unfold app_delete_id. apply bind_keeps.
  - apply getValidatedId_keeps. exact H.
  - intros id w' H'. destruct (negb (truthy id)); [exact H' |].
    match goal with
    | |- P (snd (deleteItem ?i ?k ?x)) =>
        destruct (deleteItem_outcome i k x) as [E | [[e E] | [e E]]];
        rewrite E
    end.
    + exact (P_refused (not_found id) (answered w') (P_answered w' H')).
    + exact H'.
    + exact (P_answered w' H').
Qed.

Lemma app_post_id_keeps request w :
  P w -> P (snd (app_post_id request w)).
Proof.
  intro H. unfold app_post_id. apply bind_keeps.
  { apply (validation_keeps w), H. apply getValidateName_validation. }
  intros name w1 H1. apply bind_keeps.
  { apply (validation_keeps w1), H1. apply getValidatedQuantity_validation. }
  intros quantity w2 H2. apply bind_keeps.
  { apply (validation_keeps w2), H2. apply getValidatedExpiration_validation. }
  intros expiration w3 H3. apply bind_keeps.
  { apply getValidatedId_keeps. exact H3. }
  intros id w4 H4.
  destruct (negb (truthy name) || negb (truthy quantity)
            || negb (truthy expiration) || negb (truthy id)); [exact H4 |].
  match goal with
  | |- P (snd (updateItem ?i ?k ?x)) =>
      destruct (updateItem_outcome i k x) as [E | [[e E] | [e E]]];
      rewrite E
  end.
  - exact (P_refused (not_found id) (answered w4) (P_answered w4 H4)).
  - exact H4.
  - exact (P_answered w4 H4).
Qed.

End Keeping.

Lemma statuses_refused error w :
  statuses (refused error w) = (statuses w ++ [400%Z])%list.
Proof. unfold statuses, refused. simpl. apply map_app. Qed.

Lemma refusing_refused t n error w :
  refusing t n w -> refusing t n (refused error w).
Proof.
  intros [T [N [S C]]]. repeat split; try assumption.
  rewrite statuses_refused. apply Forall_app. split; [exact S |].
  constructor; [reflexivity | constructor].
Qed.

Lemma refusing_answered t n w : refusing t n w -> refusing t n (answered w).
Proof. intros [T [N [S C]]]. repeat split; assumption. Qed.

Lemma refusing_serving d : refusing (table d) (next_id d) (serving d).
Proof. repeat split. constructor. Qed.

Lemma quiet_refused error w : quiet w -> quiet (refused error w).
Proof.
  intros [C [S W]]. repeat split; [exact C | discriminate |].
  simpl. apply Forall_app. split; [exact W |].
  constructor; [discriminate | constructor].
Qed.

Lemma quiet_answered w : quiet w -> quiet (answered w).
Proof. intros [C [S W]]. repeat split; assumption. Qed.

Lemma quiet_serving d : quiet (serving d).
Proof. repeat split; [discriminate | constructor]. Qed.

(** X8.  The update and delete routes never succeed: for every request
    and every state of the database, POST /:id and DELETE /:id leave the
    table and the next id as they were, log nothing, and every response
    they write has status 400. *)
Theorem update_and_delete_routes_only_refuse :
  forall (request : Request) (d : Db),
    refusing (table d) (next_id d) (run (app_post_id request) d)
    /\ refusing (table d) (next_id d) (run (app_delete_id request) d).
Proof.
  intros request d. unfold run. split.
  - apply app_post_id_keeps;
      [apply refusing_refused | apply refusing_answered | apply refusing_serving].
  - apply app_delete_id_keeps;
      [apply refusing_refused | apply refusing_answered | apply refusing_serving].
Qed.

(** ** No route answers 500 *)

Lemma get_world v k w : snd (get v k w) = w.
Proof. destruct v; reflexivity. Qed.

Lemma set_world v k x w : snd (set v k x w) = w.
Proof. destruct v; reflexivity. Qed.

Lemma first_world v w : snd (first v w) = w.
Proof. destruct v as [| | | | | | | |[|x xs]|]; reflexivity. Qed.

Lemma bind_world {A B : Type} (c : M A) (k : A -> M B) w :
  snd (c w) = w -> (forall a, snd (k a w) = w) -> snd (bind c k w) = w.
Proof.
  intros C K. unfold bind. destruct (c w) as [[a|e] w'] eqn:E;
    simpl in C; subst w'; [apply K | reflexivity].
Qed.

Lemma call_toLocaleDateString_world locale v w :
  snd (call_toLocaleDateString locale v w) = w.
Proof. destruct v; reflexivity. Qed.

Lemma dateObjectToString_world locale item w :
  snd (dateObjectToString locale item w) = w.
Proof.
  unfold dateObjectToString. apply bind_world; [apply get_world |].
  intro x. apply bind_world; [apply call_toLocaleDateString_world |].
  intro y. apply set_world.
Qed.

Lemma mapM_world f xs :
  (forall x w, snd (f x w) = w) -> forall w, snd (mapM f xs w) = w.
Proof.
  intro F. induction xs as [|x xs IH]; intro w; [reflexivity |].
  simpl mapM. apply bind_world; [apply F |].
  intro y. apply bind_world; [apply IH | reflexivity].
Qed.

Lemma array_map_world locale v w :
  snd (array_map v (dateObjectToString locale) w) = w.
Proof.
  destruct v; try reflexivity. unfold array_map.
  apply bind_world; [| reflexivity].
  apply mapM_world. intros. apply dateObjectToString_world.
Qed.

Lemma quiet_json v w : quiet w -> quiet (snd (response_json v w)).
Proof.
  intros [C [S W]]. repeat split; [exact C | exact S |].
  simpl. apply Forall_app. split; [exact W |].
  constructor; [exact S | constructor].
Qed.

(** A statement hands its callback either no error, or an error together
    with an undefined result; the response and the console are as before. *)
Lemma db_query_quiet q ps k w :
  quiet w ->
  (forall err res w', quiet w' -> err = VNull \/ res = VUndef ->
                      quiet (snd (k err res w'))) ->
  quiet (snd (db_query q ps k w)).
Proof.
  intros Q K. unfold db_query.
  assert (Q' : forall t n,
             quiet (mkWorld (mkDb t n (tl (faults (db w))))
                            (response w) (console w)))
    by (intros; exact Q).
  destruct (faults (db w)) as [|[e|] fl];
    try (apply K; [apply Q' | right; reflexivity]);
    destruct (exec q ps (table (db w)) (next_id (db w))) as [e | [[res t] n]];
    apply K; first [apply Q' | right; reflexivity | left; reflexivity].
Qed.

Lemma app_get_root_quiet locale request d :
  quiet (run (app_get_root locale request) d).
Proof.
  unfold run, app_get_root, getItems.
  apply db_query_quiet; [apply quiet_serving |].
  intros err res w Q [-> | ->].
  - apply bind_keeps; [rewrite get_world; exact Q |].
    intros rows w1 Q1. apply bind_keeps; [rewrite array_map_world; exact Q1 |].
    intros items w2 Q2. apply quiet_json. exact Q2.
  - exact Q.
Qed.

Lemma app_post_root_quiet request d :
  quiet (run (app_post_root request) d).
Proof.
  unfold run, app_post_root. apply bind_keeps.
  { apply (validation_keeps quiet quiet_refused (serving d)).
    - apply getValidateName_validation.
    - apply quiet_serving. }
  intros name w1 Q1. apply bind_keeps.
  { apply (validation_keeps quiet quiet_refused w1), Q1.
    apply getValidatedQuantity_validation. }
  intros quantity w2 Q2. apply bind_keeps.
  { apply (validation_keeps quiet quiet_refused w2), Q2.
    apply getValidatedExpiration_validation. }
  intros expiration w3 Q3.
  destruct (negb (truthy name) || negb (truthy quantity)
            || negb (truthy expiration)); [exact Q3 |].
  unfold insertItem.
  apply bind_keeps; [rewrite get_world; exact Q3 |]. intros a w4 Q4.
  apply bind_keeps; [rewrite get_world; exact Q4 |]. intros b w5 Q5.
  apply bind_keeps; [rewrite get_world; exact Q5 |]. intros c w6 Q6.
  apply db_query_quiet; [exact Q6 |].
  intros err res w Q [-> | ->].
  - apply bind_keeps; [rewrite get_world; exact Q |]. intros rows w7 Q7.
    apply bind_keeps; [rewrite first_world; exact Q7 |]. intros row w8 Q8.
    apply bind_keeps; [rewrite get_world; exact Q8 |]. intros id w9 Q9.
    apply bind_keeps; [rewrite set_world; exact Q9 |]. intros item w10 Q10.
    apply quiet_json. exact Q10.
  - exact Q.
Qed.

(** X9.  [internalError] is never reached: for every request and every
    state of the database, faults included, none of the four routes
    writes a response with status 500 and none logs anything. *)
Theorem no_route_answers_500 :
  forall (locale : string -> string) (request : Request) (d : Db),
    quiet (run (app_get_root locale request) d)
    /\ quiet (run (app_post_root request) d)
    /\ quiet (run (app_post_id request) d)
    /\ quiet (run (app_delete_id request) d).
Proof.
  intros locale request d.
  split; [apply app_get_root_quiet |].
  split; [apply app_post_root_quiet |].
  split.
  - apply (app_post_id_keeps quiet quiet_refused quiet_answered).
    apply quiet_serving.
  - apply (app_delete_id_keeps quiet quiet_refused quiet_answered).
    apply quiet_serving.
Qed.

(** ** What POST / can do *)

Lemma name_phase fs prm w :
  (exists error,
      getValidateName (mkRequest (VObj fs) prm) w
      = (Returned VUndef, refused error w))
  \/ (exists nm,
         lookup "name" fs = VStr nm /\ truthy (VStr nm) = true
         /\ getValidateName (mkRequest (VObj fs) prm) w
            = (Returned (VStr nm), w)).
Proof.
  rewrite getValidateName_cases. cbv zeta.
  destruct (lookup "name" fs) as [| |[|]|q| |[|c s]|iso|m|xs|os];
    try (left; eexists; reflexivity).
  - destruct (truthy (VNum q)); left; eexists; reflexivity.
  - right. exists (String c s). repeat split.
Qed.

Lemma quantity_phase fs prm w :
  (exists error,
      getValidatedQuantity (mkRequest (VObj fs) prm) w
      = (Returned VUndef, refused error w))
  \/ (exists q,
         lookup "quantity" fs = VNum q /\ truthy (VNum q) = true
         /\ getValidatedQuantity (mkRequest (VObj fs) prm) w
            = (Returned (VNum q), w)).
Proof.
  rewrite getValidatedQuantity_cases. cbv zeta.
  destruct (lookup "quantity" fs) as [| |[|]|q| |[|c s]|iso|m|xs|os];
    try (left; eexists; reflexivity).
  change (typeof (VNum q) =? "number")%string with true.
  destruct (truthy (VNum q)) eqn:T; [| left; eexists; reflexivity].
  destruct (lt_one (VNum q)); [left; eexists; reflexivity |].
  right. exists q. repeat split. exact T.
Qed.

Lemma expiration_phase fs prm w :
  (exists error,
      getValidatedExpiration (mkRequest (VObj fs) prm) w
      = (Returned VUndef, refused error w))
  \/ (exists e,
         lookup "expiration" fs = VStr e /\ truthy (VStr e) = true
         /\ getValidatedExpiration (mkRequest (VObj fs) prm) w
            = (Returned (VStr e), w)).
Proof.
  rewrite getValidatedExpiration_cases. cbv zeta.
  destruct (lookup "expiration" fs) as [| |[|]|q| |[|c s]|iso|m|xs|os];
    try (left; eexists; reflexivity).
  - destruct (truthy (VNum q)); left; eexists; reflexivity.
  - change (truthy (VStr (String c s))) with true.
    change (typeof (VStr (String c s)) =? "string")%string with true.
    change (ToString (VStr (String c s))) with (String c s).
    destruct (EXPIRATION_REGEX_test (String c s));
      [| left; eexists; reflexivity].
    right. exists (String c s). repeat split.
Qed.

(** The insert of three accepted fields. *)
Lemma insertItem_outcome nm q e callback d r c :
  let item := VObj [("name", VStr nm); ("quantity", VNum q);
                    ("expiration", VStr e)] in
  let w := mkWorld d r c in
  (next_fault d = None
   /\ insertItem item callback w
      = callback VNull
          (VObj [("name", VStr nm); ("quantity", VNum q);
                 ("expiration", VStr e); ("id", num (next_id d))])
          (mkWorld (mkDb (table d ++ [mkRow (next_id d) nm e q])
                         (next_id d + 1) (tl (faults d))) r c))
  \/ (exists x, next_fault d = Some x
                /\ insertItem item callback w
                   = (Thrown "TypeError: Cannot read property 'rows' of undefined",
                      answered w)).
Proof.
  intros item w. subst item w. destruct d as [t n [|[x|] fl]].
  - left. split; reflexivity.
  - right. exists x. split; reflexivity.
  - left. split; reflexivity.
Qed.

(** X10.  POST / with an object as body does one of three things,
    whatever the fields and the state of the database.  It refuses: at
    least one response is written, all of them 400, and no statement
    reaches the database.  Or it creates: name and expiration are strings
    and quantity is a number, one row with these and the next id is added
    at the end of the table, and the one response is 200 with the item
    and that id.  Or the INSERT fails: a TypeError is thrown, nothing is
    written and the table is unchanged. *)
Theorem create_refuses_or_inserts_once :
  forall (fs : list (string * Val)) (prm : Val) (d : Db),
    let r := app_post_root (mkRequest (VObj fs) prm) (serving d) in
    (fst r = Returned tt /\ db (snd r) = d
     /\ statuses (snd r) <> [] /\ Forall (eq 400%Z) (statuses (snd r)))
    \/ (exists nm e q,
           lookup "name" fs = VStr nm /\ lookup "expiration" fs = VStr e
           /\ lookup "quantity" fs = VNum q
           /\ r = (Returned tt,
                   mkWorld
                     (mkDb (table d ++ [mkRow (next_id d) nm e q])
                           (next_id d + 1) (tl (faults d)))
                     (mkResponse 200 None
                        [mkWrite 200 None
                           (Some (VObj [("name", VStr nm); ("quantity", VNum q);
                                        ("expiration", VStr e);
                                        ("id", num (next_id d))]))])
                     []))
    \/ (exists x, r = (Thrown x, answered (serving d))).
Proof.
  intros fs prm d r. assert (R : r = r) by reflexivity.
  unfold r at 2 in R. clearbody r. unfold app_post_root in R.
  unfold bind at 1 in R.
  destruct (name_phase fs prm (serving d)) as [[m1 E1] | [nm [Ln [Tn E1]]]];
    rewrite E1 in R; cbv beta iota in R; unfold bind at 1 in R;
    match type of R with
    | context [getValidatedQuantity _ ?w] =>
        destruct (quantity_phase fs prm w) as [[m2 E2] | [q [Lq [Tq E2]]]]
    end;
    rewrite E2 in R; cbv beta iota in R; unfold bind at 1 in R;
    match type of R with
    | context [getValidatedExpiration _ ?w] =>
        destruct (expiration_phase fs prm w) as [[m3 E3] | [e [Le [Te E3]]]]
    end;
    rewrite E3 in R; cbv beta iota in R;
    try rewrite Tn in R; try rewrite Tq in R; try rewrite Te in R;
    change (truthy VUndef) with false in R;
    cbv beta iota delta [negb orb] in R.
  8: {
    destruct (insertItem_outcome nm q e
                (fun err item =>
                   if truthy err then internalError err
                   else response_json item) d fresh_response [])
      as [[F I] | [x [F I]]]; cbv zeta in I; unfold serving in R;
      rewrite I in R; subst r.
    - right. left. exists nm, e, q.
      repeat split; first [assumption | reflexivity].
    - right. right. exists "TypeError: Cannot read property 'rows' of undefined".
      reflexivity. }
  all: subst r; left; unfold ret; cbn [fst snd]; split; [reflexivity |];
    split; [reflexivity |];
    rewrite ?statuses_refused; split;
    [ intro A; apply app_eq_nil in A; destruct A as [_ A]; discriminate A
    | repeat (apply Forall_app; split);
      first [ constructor; [reflexivity | constructor] | constructor ] ].
Qed.

(** ** Create, then list *)





(** ** [dateObjectToString] *)

Lemma lookup_assign_same k v fs : lookup k (assign k v fs) = v.
Proof.
  induction fs as [|[k' v'] fs IH]; simpl.
  - rewrite String.eqb_refl. reflexivity.
  - destruct (k =? k')%string eqn:E; simpl.
    + rewrite String.eqb_refl. reflexivity.
    + rewrite E. exact IH.
Qed.

Lemma lookup_assign_other k k' v fs :
  k <> k' -> lookup k (assign k' v fs) = lookup k fs.
Proof.
  intro N. apply String.eqb_neq in N.
  induction fs as [|[k0 v0] fs IH]; simpl.
  - rewrite N. reflexivity.
  - destruct (k' =? k0)%string eqn:E; simpl.
    + apply String.eqb_eq in E. subst k0. rewrite N. reflexivity.
    + destruct (k =? k0)%string; [reflexivity | exact IH].
Qed.

(** X12.  [dateObjectToString] on an object whose expiration is a Date
    replaces the expiration by its locale text and keeps every other
    property, without touching the response or the database.  It cannot
    be applied twice: on its own result it throws a TypeError, because
    the expiration is then a string. *)
Theorem dateObjectToString_renders_once :
  forall (locale : string -> string) (fs : list (string * Val))
         (iso : string) (w : World),
    lookup "expiration" fs = VDate iso ->
    exists fs',
      dateObjectToString locale (VObj fs) w = (Returned (VObj fs'), w)
      /\ lookup "expiration" fs' = VStr (locale iso)
      /\ (forall k, k <> "expiration" -> lookup k fs' = lookup k fs)
      /\ dateObjectToString locale (VObj fs') w
         = (Thrown "TypeError: toLocaleDateString is not a function", w).
Proof.
  intros locale fs iso w L.
  exists (assign "expiration" (VStr (locale iso)) fs).
  assert (L' : lookup "expiration"
                 (assign "expiration" (VStr (locale iso)) fs)
               = VStr (locale iso)) by apply lookup_assign_same.
  split; [| split; [exact L' | split]].
  - unfold dateObjectToString, bind at 1. rewrite get_field, L. reflexivity.
  - intros k N. apply lookup_assign_other. exact N.
  - unfold dateObjectToString, bind at 1. rewrite get_field, L'. reflexivity.
Qed.

(** X12 at the object the client hands over for the Rice row. *)
Lemma dateObjectToString_renders_once_witness :
  exists fs',
    dateObjectToString en_US (row_object rice) (serving (pantry [rice] 2))
    = (Returned (VObj fs'), serving (pantry [rice] 2))
    /\ lookup "expiration" fs' = VStr (en_US "2025-01-01")
    /\ (forall k, k <> "expiration" ->
                  lookup k fs'
                  = lookup k [("name", VStr "Rice"); ("quantity", VNum (2 # 1));
                              ("expiration", VDate "2025-01-01");
                              ("id", num 1)])
    /\ dateObjectToString en_US (VObj fs') (serving (pantry [rice] 2))
       = (Thrown "TypeError: toLocaleDateString is not a function",
          serving (pantry [rice] 2)).
Proof.
  apply (dateObjectToString_renders_once en_US
           [("name", VStr "Rice"); ("quantity", VNum (2 # 1));
            ("expiration", VDate "2025-01-01"); ("id", num 1)]
           "2025-01-01" (serving (pantry [rice] 2))).
  reflexivity.
Defined.

(** ** Which refusal the client is sent *)

(** X13.  The quantity validator words its refusal after the truthiness
    of the quantity: every falsy quantity, the number 0 included, is
    refused as "quantity was undefined."; a truthy quantity that is not a
    number, or a number below 1 other than 0, is refused as "quantity was
    not a number or was less than 1.". *)
Theorem getValidatedQuantity_refusal_wording :
  forall (fs : list (string * Val)) (prm : Val) (w : World),
    let v := lookup "quantity" fs in
    let r := getValidatedQuantity (mkRequest (VObj fs) prm) w in
    (r = (Returned VUndef, refused "quantity was undefined." w)
     <-> truthy v = false)
    /\ (r = (Returned VUndef,
             refused "quantity was not a number or was less than 1." w)
        <-> truthy v = true
            /\ ((forall q, v <> VNum q) \/ exists q, v = VNum q /\ (q < 1)%Q)).
Proof.
  intros fs prm w v r. subst r. rewrite getValidatedQuantity_cases.
  cbv zeta. fold v.
  assert (D : forall a b : string, a <> b ->
              (@Returned Val VUndef, refused a w) <> (Returned VUndef, refused b w)).
  { intros a b N E. injection E as E. congruence. }
  destruct v as [| |[|]|q| |[|c s]|iso|m|xs|os]; simpl;
    try (split; split;
         first [ reflexivity | discriminate
               | intros [A _]; discriminate A
               | intros _; split; [reflexivity | left; intros q A; discriminate A]
               | intro E; exfalso; revert E; apply D; discriminate ]).
  destruct (Qeq_bool q 0) eqn:Z; simpl.
  - split.
    + split; intros _; reflexivity.
    + split.
      * intro E. exfalso. revert E. apply D. discriminate.
      * intros [A _]. discriminate A.
  - destruct (Qle_bool 1 q) eqn:L; simpl.
    + split.
      * split; intro A; discriminate A.
      * split; [intro A; discriminate A |].
        intros [_ [A | [q' [A B]]]].
        -- exfalso. exact (A q eq_refl).
        -- injection A as <-. apply Qle_bool_iff in L. exfalso.
           exact (Qlt_not_le _ _ B L).
    + split.
      * split; [| intro A; discriminate A].
        intro E. exfalso. revert E. apply D. discriminate.
      * split; [| intros _; reflexivity].
        intros _. split; [reflexivity |]. right. exists q.
        split; [reflexivity |].
        apply Qnot_le_lt. intro A. apply Qle_bool_iff in A. congruence.
Qed.

Lemma refused_changes error w : refused error w <> w.
Proof.
  intro E.
  apply (f_equal (fun x => List.length (writes (response x)))) in E.
  simpl in E. rewrite length_app in E. simpl in E. lia.
Qed.

Lemma delivered_refused error w x :
  delivered (response w) = Some x ->
  delivered (response (refused error w)) = Some x.
Proof.
  unfold delivered, refused. simpl.
  destruct (writes (response w)); [discriminate | trivial].
Qed.

Lemma delivered_first_refusal error d :
  delivered (response (refused error (serving d)))
  = Some (mkWrite 400 (Some error) None).
Proof. reflexivity. Qed.

(** The three payload validators in a row, when the first of them to
    refuse does so with [error]. *)
Lemma payload_validators_first_refusal fs prm d error :
  let request := mkRequest (VObj fs) prm in
  let w := serving d in
  getValidateName request w = (Returned VUndef, refused error w)
  \/ (snd (getValidateName request w) = w
      /\ getValidatedQuantity request w = (Returned VUndef, refused error w))
  \/ (snd (getValidateName request w) = w
      /\ snd (getValidatedQuantity request w) = w
      /\ getValidatedExpiration request w
         = (Returned VUndef, refused error w)) ->
  exists name quantity expiration w1 w2 w3,
    getValidateName request w = (Returned name, w1)
    /\ getValidatedQuantity request w1 = (Returned quantity, w2)
    /\ getValidatedExpiration request w2 = (Returned expiration, w3)
    /\ negb (truthy name) || negb (truthy quantity)
       || negb (truthy expiration) = true
    /\ delivered (response w3) = Some (mkWrite 400 (Some error) None).
Proof.
  intros request w H. subst request w.
  destruct H as [E1 | [[S1 E2] | [S1 [S2 E3]]]].
  - destruct (quantity_phase fs prm (refused error (serving d)))
      as [[m2 E2] | [q [_ [_ E2]]]];
      match type of E2 with
      | _ = (_, ?w2) =>
          destruct (expiration_phase fs prm w2)
            as [[m3 E3] | [e [_ [_ E3]]]]
      end;
      do 6 eexists;
      (split; [exact E1 | split; [exact E2 | split; [exact E3 |]]]);
      split; reflexivity.
  - destruct (name_phase fs prm (serving d))
      as [[m1 E1] | [nm [_ [Tn E1]]]];
      [rewrite E1 in S1; exfalso; exact (refused_changes _ _ S1) |].
    destruct (expiration_phase fs prm (refused error (serving d)))
      as [[m3 E3] | [e [_ [_ E3]]]];
      do 6 eexists;
      (split; [exact E1 | split; [exact E2 | split; [exact E3 |]]]);
      (split; [rewrite Tn; reflexivity | reflexivity]).
  - destruct (name_phase fs prm (serving d))
      as [[m1 E1] | [nm [_ [Tn E1]]]];
      [rewrite E1 in S1; exfalso; exact (refused_changes _ _ S1) |].
    destruct (quantity_phase fs prm (serving d))
      as [[m2 E2] | [q [_ [Tq E2]]]];
      [rewrite E2 in S2; exfalso; exact (refused_changes _ _ S2) |].
    do 6 eexists.
    split; [exact E1 | split; [exact E2 | split; [exact E3 |]]].
    split; [rewrite Tn, Tq; reflexivity | reflexivity].
Qed.

(** X14.  The client is sent the refusal of the first field that fails,
    in the order name, quantity, expiration, whatever the later fields
    are: this holds for POST / and for POST /:id, where the id is
    validated last. *)
Theorem first_refusal_reaches_the_client :
  forall (fs : list (string * Val)) (prm : Val) (d : Db) (error : string),
    let request := mkRequest (VObj fs) prm in
    let w := serving d in
    getValidateName request w = (Returned VUndef, refused error w)
    \/ (snd (getValidateName request w) = w
        /\ getValidatedQuantity request w = (Returned VUndef, refused error w))
    \/ (snd (getValidateName request w) = w
        /\ snd (getValidatedQuantity request w) = w
        /\ getValidatedExpiration request w
           = (Returned VUndef, refused error w)) ->
    delivered (response (run (app_post_root request) d))
    = Some (mkWrite 400 (Some error) None)
    /\ delivered (response (run (app_post_id request) d))
       = Some (mkWrite 400 (Some error) None).
Proof.
  intros fs prm d error request w H.
  destruct (payload_validators_first_refusal fs prm d error H)
    as [name [quantity [expiration [w1 [w2 [w3 [E1 [E2 [E3 [G D]]]]]]]]]].
  subst request w. unfold run. split.
  - unfold app_post_root.
    unfold bind at 1. rewrite E1. cbv beta iota.
    unfold bind at 1. rewrite E2. cbv beta iota.
    unfold bind at 1. rewrite E3. cbv beta iota.
    rewrite G. exact D.
  - unfold app_post_id.
    unfold bind at 1. rewrite E1. cbv beta iota.
    unfold bind at 1. rewrite E2. cbv beta iota.
    unfold bind at 1. rewrite E3. cbv beta iota.
    unfold bind at 1.
    destruct (getValidatedId_cases (mkRequest (VObj fs) prm) w3)
      as [[n E] | [[m E] | [e E]]]; rewrite E; cbv beta iota.
    + rewrite G. exact D.
    + rewrite G. simpl. apply delivered_refused. exact D.
    + exact D.
Qed.

(** X14 at a payload without a name and with the quantity 0: the client
    is told about the name. *)
Lemma first_refusal_reaches_the_client_witness :
  delivered (response
    (run (app_post_root
            (mkRequest (VObj [("quantity", VNum 0)]) (path_id "1")))
         (pantry [] 1)))
  = Some (mkWrite 400 (Some "name was undefined.") None)
  /\ delivered (response
       (run (app_post_id
               (mkRequest (VObj [("quantity", VNum 0)]) (path_id "1")))
            (pantry [] 1)))
     = Some (mkWrite 400 (Some "name was undefined.") None).
Proof.
  apply (first_refusal_reaches_the_client [("quantity", VNum 0)]
           (path_id "1") (pantry [] 1) "name was undefined.").
  left. reflexivity.
Defined.

(** ** C6: one response per request *)















